(** * PDF-to-Excel converter: a shallow embedding of [code_base.py]

    The development follows the four components of the program:
    the field extractor ([extract_data_from_pdf]), the sheet provisioner
    ([get_or_create_sheet]), the row writer ([write_data_to_sheet]) and the
    workbook orchestrator (the second half of [main]); the first half of
    [main], from the configuration to the extracted rows, comes with it.

    Conventions of the embedding.
    - A Python [str] is a [string]; its characters are the code points
      below 256.
    - A Python [dict] with string keys is a [gmap string _]; the one
      dictionary whose iteration order matters ([data_by_batea]) is an
      association list in insertion order.
    - openpyxl keeps the cells of a worksheet in a dictionary keyed by
      (row, column), both counted from 1: here a [gmap (positive * positive)
      cell].  A worksheet object handed around by reference is an index into
      the list of sheets of its workbook.
    - Library calls (openpyxl, PyMuPDF, [os], [shutil]) are given the
      behaviour their documentation states; an exception they may raise is an
      [option] or an explicit outcome.  Assigning a sheet title is plain
      assignment: what openpyxl itself does to a new title (a counter added
      to a title already taken up to letter case, an exception for the
      characters Excel forbids) is not modelled, and neither is its checking
      of cell strings.
    - A number is kept as the decimal that was read, not as its binary64
      rounding. *)

From stdpp Require Import gmap strings list fin_maps.
From Stdlib Require Import Ascii String ZArith NArith Lia.

Open Scope string_scope.
Close Scope list_scope.
Open Scope list_scope.

(* [length] and [concat] stay the ones of lists; those of strings are
   written [String.length] and [String.concat]. *)
Abbreviation length := List.length.
Abbreviation concat := List.concat.

(** ** Python string helpers *)

Module PyStr.

(** [str.isspace] on the code points below 256. *)
Definition is_space (c : ascii) : bool :=
  let n := nat_of_ascii c in
  (((9 <=? n) && (n <=? 13)) || ((28 <=? n) && (n <=? 32))
   || (n =? 133) || (n =? 160))%nat.

Definition is_empty (s : string) : bool :=
  match s with EmptyString => true | String _ _ => false end.

Fixpoint lstrip (s : string) : string :=
  match s with
  | EmptyString => EmptyString
  | String c s' => if is_space c then lstrip s' else s
  end.

Fixpoint rstrip (s : string) : string :=
  match s with
  | EmptyString => EmptyString
  | String c s' =>
      let t := rstrip s' in
      if is_space c && is_empty t then EmptyString else String c t
  end.

(** [s.strip()] *)
Definition strip (s : string) : string := rstrip (lstrip s).

(** [s.replace(a, b)] for one-character [a] and [b]. *)
Fixpoint replace (a b : ascii) (s : string) : string :=
  match s with
  | EmptyString => EmptyString
  | String c s' =>
      String (if Ascii.eqb c a then b else c) (replace a b s')
  end.

(** [str.lower] on one character: the capital letters, ASCII and
    Latin-1, are 32 below their small letters. *)
Definition lower_char (c : ascii) : ascii :=
  let n := nat_of_ascii c in
  if (((65 <=? n) && (n <=? 90))
      || ((192 <=? n) && (n <=? 222) && negb (n =? 215)))%nat
  then ascii_of_nat (n + 32) else c.

Fixpoint lower (s : string) : string :=
  match s with
  | EmptyString => EmptyString
  | String c s' => String (lower_char c) (lower s')
  end.

(** [s.endswith(suffix)] *)
Definition endswith (s suffix : string) : bool :=
  let n := String.length s in
  let k := String.length suffix in
  (k <=? n)%nat && String.eqb (String.substring (n - k) k s) suffix.

Fixpoint contains_char (a : ascii) (s : string) : bool :=
  match s with
  | EmptyString => false
  | String c s' => Ascii.eqb c a || contains_char a s'
  end.

Definition head (s : string) : option ascii :=
  match s with EmptyString => None | String c _ => Some c end.

Fixpoint last (s : string) : option ascii :=
  match s with
  | EmptyString => None
  | String c EmptyString => Some c
  | String _ s' => last s'
  end.

(** No white space at either end. *)
Definition trimmed (s : string) : Prop :=
  (forall c, head s = Some c -> is_space c = false) /\
  (forall c, last s = Some c -> is_space c = false).

End PyStr.

(** ** [float(str)]

    The grammar is the one of Python's [float]: surrounding white space, an
    optional sign, then [inf], [infinity] or [nan] in any case, or a decimal
    numeral with an optional fraction and exponent, where single underscores
    may separate digits.  The result is kept as the exact decimal read
    ([(-1)^neg * mant * 10^exp10]); the rounding to binary64 is not part of
    the model. *)

Module PyFloat.

Inductive pyfloat :=
| Finite (neg : bool) (mant : N) (exp10 : Z)
| Inf (neg : bool)
| NaN.

Definition is_digit (c : ascii) : bool :=
  let n := nat_of_ascii c in ((48 <=? n) && (n <=? 57))%nat.

Definition digit_val (c : ascii) : N := N.of_nat (nat_of_ascii c - 48).

(** Digits after the first one of a digit part; an underscore is read only
    when a digit follows it. *)
Fixpoint digits_go (acc : N) (n : nat) (l : list ascii)
  : N * nat * list ascii :=
  match l with
  | [] => (acc, n, [])
  | c :: l' =>
      if is_digit c then digits_go (acc * 10 + digit_val c)%N (S n) l'
      else if Ascii.eqb c "_" then
        match l' with
        | d :: l'' =>
            if is_digit d
            then digits_go (acc * 10 + digit_val d)%N (S n) l''
            else (acc, n, l)
        | [] => (acc, n, l)
        end
      else (acc, n, l)
  end.

(** A digit part continuing the numeral [acc] (of [n] digits); [None] when
    the input does not start with a digit. *)
Definition digitpart (acc : N) (n : nat) (l : list ascii)
  : option (N * nat * list ascii) :=
  match l with
  | c :: l' =>
      if is_digit c
      then Some (digits_go (acc * 10 + digit_val c)%N (S n) l')
      else None
  | [] => None
  end.

Definition opt_digitpart (acc : N) (n : nat) (l : list ascii)
  : N * nat * list ascii :=
  match digitpart acc n l with
  | Some r => r
  | None => (acc, n, l)
  end.

Definition sign (l : list ascii) : bool * list ascii :=
  match l with
  | c :: l' =>
      if Ascii.eqb c "-" then (true, l')
      else if Ascii.eqb c "+" then (false, l')
      else (false, l)
  | [] => (false, [])
  end.

Definition exponent (l : list ascii) : option Z :=
  match l with
  | [] => Some 0%Z
  | c :: l' =>
      if Ascii.eqb c "e" || Ascii.eqb c "E" then
        let '(neg, l'') := sign l' in
        match digitpart 0 0 l'' with
        | Some (e, _, []) =>
            Some (if neg then (- Z.of_N e)%Z else Z.of_N e)
        | _ => None
        end
      else None
  end.

Definition decimal (neg : bool) (l : list ascii) : option pyfloat :=
  let '(ip, ni, l1) := opt_digitpart 0 0 l in
  let '(m, nd, l2) :=
    match l1 with
    | c :: l1' =>
        if Ascii.eqb c "." then opt_digitpart ip ni l1' else (ip, ni, l1)
    | [] => (ip, ni, l1)
    end in
  if (nd =? 0)%nat then None
  else
    match exponent l2 with
    | Some e => Some (Finite neg m (e - Z.of_nat (nd - ni)))
    | None => None
    end.

(** [float(s)]; [None] stands for [ValueError]. *)
Definition float (s : string) : option pyfloat :=
  let '(neg, l) := sign (list_ascii_of_string (PyStr.strip s)) in
  let w := PyStr.lower (string_of_list_ascii l) in
  if String.eqb w "inf" || String.eqb w "infinity" then Some (Inf neg)
  else if String.eqb w "nan" then Some NaN
  else decimal neg l.

(** Truth value of a float: zero (of either sign) is false. *)
Definition truthy (x : pyfloat) : bool :=
  match x with
  | Finite _ m _ => negb (m =? 0)%N
  | _ => true
  end.

End PyFloat.


(** ** Worksheets (openpyxl) *)

Inductive cell_value :=
| VNone
| VNum (x : PyFloat.pyfloat)
| VStr (s : string).

Record side := Side
  { border_style : option string; side_color : option string }.

Record border := Border
  { b_left : side; b_right : side; b_top : side; b_bottom : side }.

Record font := Font
  { font_name : option string; font_bold : bool; font_color : option string }.

Record cell := Cell
  { value : cell_value; cell_font : font; cell_border : border }.

Definition no_side : side := Side None None.
Definition default_border : border := Border no_side no_side no_side no_side.
Definition default_font : font := Font (Some "Calibri") false None.

(** The cell [sheet.cell(row, column)] creates when none is there yet. *)
Definition blank_cell : cell := Cell VNone default_font default_border.

Definition set_value (v : cell_value) (c : cell) : cell :=
  Cell v (cell_font c) (cell_border c).
Definition set_font (f : font) (c : cell) : cell :=
  Cell (value c) f (cell_border c).
Definition set_border (b : border) (c : cell) : cell :=
  Cell (value c) (cell_font c) b.

(** A worksheet: its title and its cells by (row, column).  Column widths,
    row heights and merged ranges play no part in what is verified here. *)
Record sheet := Sheet
  { title : string; cells : gmap (positive * positive) cell }.

Definition cell_at (sh : sheet) (r c : positive) : cell :=
  default blank_cell (cells sh !! (r, c)).

(** [cell = sheet.cell(row=r, column=c)] followed by attribute assignments
    [f] on that cell. *)
Definition upd_cell (f : cell -> cell) (r c : positive) (sh : sheet) : sheet :=
  Sheet (title sh) (<[(r, c) := f (cell_at sh r c)]> (cells sh)).

Definition shift_row (idx : positive) (k : positive * positive)
  : positive * positive :=
  if (idx <=? k.1)%positive then (Pos.succ k.1, k.2) else k.

(** [sheet.insert_rows(idx)]: every cell of a row at or below [idx] moves
    one row down, with its value and style. *)
Definition insert_rows (idx : positive) (sh : sheet) : sheet :=
  Sheet (title sh) (kmap (shift_row idx) (cells sh)).

(** [sheet.max_column] *)
Definition max_column (sh : sheet) : positive :=
  map_fold (fun k _ acc => Pos.max k.2 acc) 1%positive (cells sh).

(** [range(lo, hi)] over row or column numbers. *)
Definition range_pos (lo hi : nat) : list positive :=
  Pos.of_nat <$> seq lo (hi - lo).

(** [str(x)] of a number read from a cell is Python's own formatting of
    floats; the development is parametric in it. *)
Class NumStr := num_str : PyFloat.pyfloat -> string.

(** [cell.value] taken as a header: [None], the empty string and zero are
    false; otherwise the header name is [str(cell.value).strip()]. *)
Definition header_name `{NumStr} (v : cell_value) : option string :=
  match v with
  | VNone => None
  | VStr s => if PyStr.is_empty s then None else Some (PyStr.strip s)
  | VNum x => if PyFloat.truthy x then Some (PyStr.strip (num_str x)) else None
  end.

Definition add_header `{NumStr} (sh : sheet) (header_row : positive)
    (header_map : gmap string positive) (col : positive)
  : gmap string positive :=
  match header_name (value (cell_at sh header_row col)) with
  | Some h => <[h := col]> header_map
  | None => header_map
  end.

(** The header row read over the columns 1 .. [n]. *)
Definition headers_upto `{NumStr} (sh : sheet) (header_row : positive)
    (n : nat) : gmap string positive :=
  foldl (add_header sh header_row) ∅ (range_pos 1 (S n)).

Definition get_header_map `{NumStr} (sh : sheet) (header_row : positive)
  : gmap string positive :=
  headers_upto sh header_row (Pos.to_nat (max_column sh)).

(** ** Row writer *)

Definition black_font : font := Font None false (Some "000000").
Definition thin_border_side : side := Side (Some "thin") (Some "000000").
Definition thin_border : border :=
  Border thin_border_side thin_border_side thin_border_side thin_border_side.

Definition field_to_header_map : list (string * string) :=
  [ ("FECHA", "FECHA"); ("BATEA", "BATEA"); ("EMPRESA", "EMPRESA");
    ("NIF EMPRESA", "NIF EMPRESA"); ("KG BRUTOS", "KG BRUTOS");
    ("DESCUENTO", "DESCUENTO"); ("KG NETOS", "KG NETOS") ].

(** The value the writer stores for a raw string: the number when
    [float] accepts it, the string itself otherwise. *)
Definition typed_value (raw : string) : cell_value :=
  match PyFloat.float raw with
  | Some numeric_value => VNum numeric_value
  | None => VStr raw
  end.

(** One iteration of the loop over [field_to_header_map]. *)
Definition write_field (header_map : gmap string positive)
    (data_row : gmap string string) (target_row : positive)
    (sh : sheet) (fh : string * string) : sheet :=
  let '(field_name, header) := fh in
  match header_map !! header with
  | Some col_idx =>
      let value_to_write := default "" (data_row !! field_name) in
      match PyFloat.float value_to_write with
      | Some numeric_value =>
          upd_cell (fun c => set_font black_font (set_value (VNum numeric_value) c))
                   target_row col_idx sh
      | None =>
          upd_cell (fun c => set_font black_font
                      (set_value (VStr (default "" (data_row !! field_name))) c))
                   target_row col_idx sh
      end
  | None => sh
  end.

(** One iteration of the loop over [range(1, 15)]. *)
Definition border_step (target_row : positive) (sh : sheet)
    (col_idx : positive) : sheet :=
  upd_cell (set_border thin_border) target_row col_idx sh.

Definition write_data_to_sheet (sh : sheet) (header_map : gmap string positive)
    (data_row : gmap string string) (target_row : positive) : sheet :=
  let sh1 := insert_rows target_row sh in
  let sh2 := foldl (border_step target_row) sh1 (range_pos 1 15) in
  foldl (write_field header_map data_row target_row) sh2 field_to_header_map.

(** ** Workbooks and the sheet provisioner *)

(** A workbook: its sheets in tab order and the index of the active one. *)
Record workbook := Workbook
  { sheets : list sheet; active_index : nat }.

(** [workbook.sheetnames] *)
Definition sheetnames (wb : workbook) : list string := title <$> sheets wb.

(** [workbook[name]]: the first sheet of that title, with its position. *)
Definition wb_getitem (wb : workbook) (name : string) : option (nat * sheet) :=
  list_find (fun s => title s = name) (sheets wb).

(** [name in workbook.sheetnames] *)
Definition has_sheet (wb : workbook) (name : string) : bool :=
  bool_decide (name ∈ sheetnames wb).

(** The sheet a worksheet reference (an index) points to. *)
Definition sheet_of (wb : workbook) (i : nat) : sheet :=
  default (Sheet "" ∅) (sheets wb !! i).

(** A mutation [f] of the worksheet behind reference [i]. *)
Definition with_sheet (f : sheet -> sheet) (i : nat) (wb : workbook) : workbook :=
  Workbook (alter f i (sheets wb)) (active_index wb).

Definition set_title (name : string) (sh : sheet) : sheet :=
  Sheet name (cells sh).

(** [workbook.copy_worksheet(sheet i)]: a copy of the cells and styles under
    the title of the original followed by [" Copy"], added as the last tab;
    returns the reference of the copy. *)
Definition copy_worksheet (wb : workbook) (i : nat) : workbook * nat :=
  let src := sheet_of wb i in
  (Workbook (sheets wb ++ [Sheet (title src +:+ " Copy") (cells src)])
            (active_index wb),
   List.length (sheets wb)).

(** [workbook.create_sheet(title=name)]: a new empty last tab. *)
Definition create_sheet (wb : workbook) (name : string) : workbook * nat :=
  (Workbook (sheets wb ++ [Sheet name ∅]) (active_index wb),
   List.length (sheets wb)).

(** [del workbook[name]] for a name known to be there. *)
Definition del_sheet (wb : workbook) (name : string) : workbook :=
  match wb_getitem wb name with
  | Some (i, _) => Workbook (delete i (sheets wb)) (active_index wb)
  | None => wb
  end.

(** [get_or_create_sheet]: the workbook after the call and the reference
    returned ([None] for Python's [None]).  A sheet obtained by
    [workbook[name]] always has the workbook as its parent, so the second
    guard of the source never fires. *)
Definition get_or_create_sheet (wb : workbook) (batea_name : string)
    (template_sheet_name : string) : workbook * option nat :=
  if has_sheet wb batea_name then
    (wb, fst <$> wb_getitem wb batea_name)
  else if negb (has_sheet wb template_sheet_name) then
    (wb, None)
  else
    match wb_getitem wb template_sheet_name with
    | Some (t, _) =>
        let '(wb1, n) := copy_worksheet wb t in
        (with_sheet (set_title batea_name) n wb1, Some n)
    | None => (wb, None)
    end.

(** ** Workbook orchestrator: the two write loops *)

Definition TEMPLATE : string := "TEMPLATE".
Definition UNKNOWN_BATEA : string := "UNKNOWN_BATEA".

(** [dict.get(key, dflt)] *)
Definition dict_get (d : gmap string string) (key dflt : string) : string :=
  default dflt (d !! key).

(** Update mode, the body of [for data_row in all_data]. *)
Definition update_row `{NumStr} (wb : workbook) (data_row : gmap string string)
  : workbook :=
  let batea := PyStr.strip (dict_get data_row "BATEA" "") in
  if PyStr.is_empty batea then wb
  else
    match get_or_create_sheet wb batea TEMPLATE with
    | (wb1, None) => wb1
    | (wb1, Some i) =>
        let header_map := get_header_map (sheet_of wb1 i) 4 in
        let target_row := 5%positive in
        with_sheet (fun sh => write_data_to_sheet sh header_map data_row target_row)
                   i wb1
    end.

Definition update_rows `{NumStr} (wb : workbook)
    (all_data : list (gmap string string)) : workbook :=
  foldl update_row wb all_data.

(** Create mode, the key a row is grouped under. *)
Definition group_key (row : gmap string string) : string :=
  let batea := PyStr.strip (dict_get row "BATEA" UNKNOWN_BATEA) in
  if PyStr.is_empty batea then UNKNOWN_BATEA else batea.

(** [data_by_batea[batea].append(row)], creating the entry at the end of the
    dictionary when the key is new. *)
Fixpoint group_add (batea : string) (row : gmap string string)
    (d : list (string * list (gmap string string)))
  : list (string * list (gmap string string)) :=
  match d with
  | [] => [(batea, [row])]
  | (k, rows) :: d' =>
      if String.eqb k batea then (k, rows ++ [row]) :: d'
      else (k, rows) :: group_add batea row d'
  end.

Definition group_by_batea (all_data : list (gmap string string))
  : list (string * list (gmap string string)) :=
  foldl (fun d row => group_add (group_key row) row d) [] all_data.

(** Create mode, the body of [for batea_name, batea_data in ...]. *)
Definition create_group `{NumStr} (wb : workbook)
    (g : string * list (gmap string string)) : workbook :=
  let '(batea_name, batea_data) := g in
  match get_or_create_sheet wb batea_name TEMPLATE with
  | (wb1, None) => wb1
  | (wb1, Some i) =>
      let header_map := get_header_map (sheet_of wb1 i) 4 in
      let target_row := 5%positive in
      foldl (fun w data_row =>
               with_sheet (fun sh => write_data_to_sheet sh header_map data_row target_row)
                          i w)
            wb1 batea_data
  end.

Definition create_groups `{NumStr} (wb : workbook)
    (data_by_batea : list (string * list (gmap string string))) : workbook :=
  foldl create_group wb data_by_batea.

(** The terminal step before [workbook.save]. *)
Definition remove_template (wb : workbook) : workbook :=
  if has_sheet wb TEMPLATE then del_sheet wb TEMPLATE else wb.

(** ** Lines printed to the operator

    The program reports what it does with [print].  The lines a statement
    below speaks of are given here as functions of the same inputs, following
    the same branches as the code that prints them; file paths and exception
    texts are left out of the messages, and the source file name of a row is
    read with a default. *)

Inductive message :=
| SheetNotFound (batea_name template_sheet_name : string)
    (* Sheet '..' not found. Creating it from '..'... *)
| TemplateSheetMissing (template_sheet_name : string)
    (* CRITICAL ERROR: Template sheet '..' not found in the workbook. *)
| NoBatea (source_file : string)
    (* Warning: PDF '..' has no BATEA. Skipping. *)
| SkippingPdf (source_file : string)
    (* Skipping PDF '..' due to missing template sheet. *)
| CreatingSheet (batea_name : string)
    (* Creating sheet '..'... *)
| SkippingBatea (batea_name : string)
    (* Skipping Batea '..' due to missing template sheet. *)
| WritingData (source_file batea_name : string) (target_row : positive)
    (* Writing data from '..' to sheet '..', row N... *)
| HeaderNotFound (header sheet_title : string)
    (* Warning: Header '..' not found in sheet '..'. Skipping data. *)
| PageOutOfRange (page_num : Z) (field_name : string)
    (* Warning: Page N out of range for ... Skipping field '..'. *)
| FieldError (field_name : string).
    (* Error processing field '..' in ...: ... *)

(** Printed by [get_or_create_sheet]. *)
Definition provision_messages (wb : workbook) (batea_name : string)
    (template_sheet_name : string) : list message :=
  if has_sheet wb batea_name then []
  else if negb (has_sheet wb template_sheet_name)
  then [SheetNotFound batea_name template_sheet_name;
        TemplateSheetMissing template_sheet_name]
  else [SheetNotFound batea_name template_sheet_name].

(** Printed by [write_data_to_sheet]: one warning for each field whose
    header the sheet does not have. *)
Definition write_messages (header_map : gmap string positive)
    (sheet_title : string) : list message :=
  omap (fun fh : string * string =>
          match header_map !! fh.2 with
          | Some _ => None
          | None => Some (HeaderNotFound fh.2 sheet_title)
          end)
       field_to_header_map.

Definition source_file (data_row : gmap string string) : string :=
  dict_get data_row "Source File" "".

(** Printed by the body of the update loop. *)
Definition update_row_messages `{NumStr} (wb : workbook)
    (data_row : gmap string string) : list message :=
  let batea := PyStr.strip (dict_get data_row "BATEA" "") in
  if PyStr.is_empty batea then [NoBatea (source_file data_row)]
  else
    provision_messages wb batea TEMPLATE ++
    match get_or_create_sheet wb batea TEMPLATE with
    | (_, None) => [SkippingPdf (source_file data_row)]
    | (wb1, Some i) =>
        WritingData (source_file data_row) batea 5
        :: write_messages (get_header_map (sheet_of wb1 i) 4)
                          (title (sheet_of wb1 i))
    end.

(** Printed by the body of the create loop. *)
Definition create_group_messages `{NumStr} (wb : workbook)
    (g : string * list (gmap string string)) : list message :=
  let '(batea_name, batea_data) := g in
  CreatingSheet batea_name ::
  provision_messages wb batea_name TEMPLATE ++
  match get_or_create_sheet wb batea_name TEMPLATE with
  | (_, None) => [SkippingBatea batea_name]
  | (wb1, Some i) =>
      batea_data ≫= (fun data_row =>
        WritingData (source_file data_row) batea_name 5
        :: write_messages (get_header_map (sheet_of wb1 i) 4)
                          (title (sheet_of wb1 i)))
  end.

(** ** Files and paths ([os], [os.path], [shutil], [datetime])

    A file system maps a path, as written, to what is stored there.  A
    file is an .xlsx workbook or anything else, and may be locked by another
    process (open in Excel), which makes writing to it fail. *)

Inductive content :=
| Xlsx (wb : workbook)
| Other.

Inductive entry :=
| File (c : content) (locked : bool)
| Dir.

Module Os.

(** [s.rfind(a)] for a character [a] *)
Fixpoint rfind (a : ascii) (s : string) : option nat :=
  match s with
  | EmptyString => None
  | String c s' =>
      match rfind a s' with
      | Some i => Some (S i)
      | None => if Ascii.eqb c a then Some 0 else None
      end
  end.

Fixpoint all_char (a : ascii) (s : string) : bool :=
  match s with
  | EmptyString => true
  | String c s' => Ascii.eqb c a && all_char a s'
  end.

Fixpoint rstrip_char (a : ascii) (s : string) : string :=
  match s with
  | EmptyString => EmptyString
  | String c s' =>
      let t := rstrip_char a s' in
      if Ascii.eqb c a && PyStr.is_empty t then EmptyString else String c t
  end.

Definition drop (n : nat) (s : string) : string :=
  String.substring n (String.length s - n) s.

(** [os.path.dirname] *)
Definition dirname (p : string) : string :=
  match rfind "/" p with
  | Some i =>
      let head := String.substring 0 (S i) p in
      if all_char "/" head then head else rstrip_char "/" head
  | None => ""
  end.

(** [os.path.basename] *)
Definition basename (p : string) : string :=
  match rfind "/" p with
  | Some i => drop (S i) p
  | None => p
  end.

(** [os.path.splitext]: the extension starts at the last dot of the last
    component, unless only dots precede it there. *)
Definition splitext (p : string) : string * string :=
  let start := match rfind "/" p with Some i => S i | None => 0 end in
  match rfind "." p with
  | Some dot =>
      if (start <=? dot)%nat
         && negb (all_char "." (String.substring start (dot - start) p))
      then (String.substring 0 dot p, drop dot p)
      else (p, "")
  | None => (p, "")
  end.

(** [os.path.join(a, b)] *)
Definition join (a b : string) : string :=
  if bool_decide (PyStr.head b = Some "/"%char) then b
  else if PyStr.is_empty a || bool_decide (PyStr.last a = Some "/"%char)
  then a +:+ b
  else a +:+ "/" +:+ b.

(** [os.path.exists] *)
Definition exists_ (f : gmap string entry) (p : string) : bool :=
  bool_decide (is_Some (f !! p)).

(** The directory of [p] is there (the working directory always is). *)
Definition parent_ok (f : gmap string entry) (p : string) : bool :=
  let d := dirname p in
  PyStr.is_empty d || match f !! d with Some Dir => true | _ => false end.

(** A file can be created or replaced at [p]. *)
Definition writable (f : gmap string entry) (p : string) : bool :=
  parent_ok f p &&
  match f !! p with
  | Some Dir => false
  | Some (File _ locked) => negb locked
  | None => true
  end.

(** [os.makedirs(p, exist_ok=True)]; [None] when it raises. *)
Definition makedirs (f : gmap string entry) (p : string)
  : option (gmap string entry) :=
  match f !! p with
  | Some Dir => Some f
  | Some (File _ _) => None
  | None => Some (<[p := Dir]> f)
  end.

(** [shutil.copy(src, dst)]; [None] when it raises. *)
Definition copy (f : gmap string entry) (src dst : string)
  : option (gmap string entry) :=
  match f !! src with
  | Some (File c _) =>
      let target :=
        match f !! dst with
        | Some Dir => join dst (basename src)
        | _ => dst
        end in
      if writable f target then Some (<[target := File c false]> f) else None
  | _ => None
  end.

Record datetime := Datetime
  { year : nat; month : nat; day : nat;
    hour : nat; minute : nat; second : nat; microsecond : nat }.

Definition digit (n : nat) : ascii := ascii_of_nat (48 + n mod 10).

Definition pad2 (n : nat) : string :=
  String (digit (n / 10)) (String (digit n) "").

Definition pad4 (n : nat) : string :=
  String (digit (n / 1000)) (String (digit (n / 100)) (pad2 n)).

(** [now.strftime("%Y-%m-%d_%H%M%S")] *)
Definition strftime (now : datetime) : string :=
  pad4 (year now) +:+ "-" +:+ pad2 (month now) +:+ "-" +:+ pad2 (day now)
  +:+ "_" +:+ pad2 (hour now) +:+ pad2 (minute now) +:+ pad2 (second now).

End Os.

(** [load_workbook(path)]; [None] when it raises. *)
Definition load_workbook (f : gmap string entry) (path : string)
  : option workbook :=
  match f !! path with
  | Some (File (Xlsx wb) _) => Some wb
  | _ => None
  end.

(** [workbook.save(path)]; [None] when it raises: the target cannot be
    written, or the workbook has no sheet left. *)
Definition save (f : gmap string entry) (path : string) (wb : workbook)
  : option (gmap string entry) :=
  match sheets wb with
  | [] => None
  | _ :: _ =>
      if Os.writable f path then Some (<[path := File (Xlsx wb) false]> f)
      else None
  end.

(** ** Workbook orchestrator: [main] from the template check on *)

#[global] Instance side_eq_dec : EqDecision side.
Proof. solve_decision. Defined.
#[global] Instance border_eq_dec : EqDecision border.
Proof. solve_decision. Defined.
#[global] Instance font_eq_dec : EqDecision font.
Proof. solve_decision. Defined.

(** [cell.has_style] *)
Definition has_style (c : cell) : bool :=
  negb (bool_decide (cell_font c = default_font /\ cell_border c = default_border)).

(** What [copy_sheet_properties] does with one source cell: the value is
    passed to [target_sheet.cell] (which ignores [None]) and the style is
    copied when the source has one. *)
Definition copy_cell (src tgt : cell) : cell :=
  let c1 := match value src with VNone => tgt | v => set_value v tgt end in
  if has_style src
  then set_border (cell_border src) (set_font (cell_font src) c1)
  else c1.

Definition copy_sheet_properties (source_sheet target_sheet : sheet) : sheet :=
  Sheet (title target_sheet)
        (merge (fun os ot =>
                  match os with
                  | Some s => Some (copy_cell s (default blank_cell ot))
                  | None => ot
                  end)
               (cells source_sheet) (cells target_sheet)).

Definition backup_path (now : Os.datetime) (output_filename : string) : string :=
  let timestamp := Os.strftime now in
  let '(base_name, extension) := Os.splitext output_filename in
  let backup_filename := base_name +:+ "_" +:+ timestamp +:+ extension in
  Os.join ".old" backup_filename.

(** The backup block of update mode: whatever raises inside it is caught
    and the run goes on. *)
Definition backup_existing (f : gmap string entry) (now : Os.datetime)
    (output_filename : string) : gmap string entry :=
  match Os.makedirs f ".old" with
  | Some f1 =>
      match Os.copy f1 output_filename (backup_path now output_filename) with
      | Some f2 => f2
      | None => f1
      end
  | None => f
  end.

(** Update mode: the TEMPLATE sheet is rebuilt from the template file when
    the workbook has none; [None] when the run stops there. *)
Definition ensure_template (f : gmap string entry) (template_path : string)
    (wb : workbook) : option workbook :=
  if has_sheet wb TEMPLATE then Some wb
  else if negb (Os.exists_ f template_path) then None
  else
    match load_workbook f template_path with
    | Some template_wb =>
        match sheets template_wb !! active_index template_wb with
        | Some source_sheet =>
            let '(wb1, t) := create_sheet wb TEMPLATE in
            Some (with_sheet (copy_sheet_properties source_sheet) t wb1)
        | None => None
        end
    | None => None
    end.

Inductive outcome :=
| Returned      (* stopped early, with a message *)
| Raised        (* an exception nothing catches *)
| Saved
| SaveFailed.

(** What a run leaves: the file system, how it ended, and the workbook it
    handed to [workbook.save], if it got that far. *)
Record run := Run
  { final_fs : gmap string entry; how : outcome; handed : option workbook }.

Definition save_and_exit (f : gmap string entry) (output_filename : string)
    (wb : workbook) : run :=
  let wb1 := remove_template wb in
  match save f output_filename wb1 with
  | Some f1 => Run f1 Saved (Some wb1)
  | None => Run f SaveFailed (Some wb1)
  end.

Definition update_mode `{NumStr} (f : gmap string entry) (now : Os.datetime)
    (template_path output_filename : string)
    (all_data : list (gmap string string)) : run :=
  let f1 := backup_existing f now output_filename in
  match load_workbook f1 output_filename with
  | None => Run f1 Returned None
  | Some wb =>
      match ensure_template f1 template_path wb with
      | None => Run f1 Returned None
      | Some wb1 => save_and_exit f1 output_filename (update_rows wb1 all_data)
      end
  end.

Definition create_mode `{NumStr} (f : gmap string entry)
    (template_path output_filename : string)
    (all_data : list (gmap string string)) : run :=
  let data_by_batea := group_by_batea all_data in
  match Os.copy f template_path output_filename with
  | None => Run f Raised None
  | Some f1 =>
      match load_workbook f1 output_filename with
      | None => Run f1 Returned None
      | Some wb =>
          match sheets wb !! active_index wb with
          | None => Run f1 Returned None
          | Some _ =>
              let wb1 := with_sheet (set_title TEMPLATE) (active_index wb) wb in
              save_and_exit f1 output_filename (create_groups wb1 data_by_batea)
          end
      end
  end.

Definition output_name (typed : string) : string :=
  if PyStr.endswith (PyStr.lower typed) ".xlsx" then typed
  else typed +:+ ".xlsx".

(** [main] once the rows have been extracted: [typed] is the name the
    operator enters, [now] the clock read by the backup block. *)
Definition main_excel `{NumStr} (f : gmap string entry) (now : Os.datetime)
    (template_path typed : string) (all_data : list (gmap string string))
  : run :=
  match all_data with
  | [] => Run f Returned None
  | _ :: _ =>
      if negb (Os.exists_ f template_path) then Run f Returned None
      else
        let output_filename := output_name typed in
        if Os.exists_ f output_filename
        then update_mode f now template_path output_filename all_data
        else create_mode f template_path output_filename all_data
  end.

(** ** Field extractor (PyMuPDF)

    A field descriptor is an entry of [extraction_fields] in the
    configuration: a name, a page index and the list of coordinates of a
    rectangle.  The program never computes with a coordinate, so their type
    is left open. *)

Section Extractor.

Context {coord : Type}.

Record field := Field
  { name : string; page : Z; rect_coords : list coord }.

(** [fitz.Rect(x0, y0, x1, y1)] *)
Record rect := Rect { x0 : coord; y0 : coord; x1 : coord; y1 : coord }.

(** An opened document: its number of pages and the text
    [doc.load_page(p).get_text("text", clip=r)] returns ([None] when either
    call raises). *)
Record document := Document
  { page_count : Z; get_text : Z -> rect -> option string }.

(** [fitz.Rect(rect_coords[0], ..., rect_coords[3])]; [None] for the
    [IndexError] of a list that is too short. *)
Definition make_rect (rect_coords : list coord) : option rect :=
  match rect_coords with
  | a :: b :: c :: d :: _ => Some (Rect a b c d)
  | _ => None
  end.

Definition newline : ascii := ascii_of_nat 10.
Definition carriage_return : ascii := ascii_of_nat 13.

(** The clean-up of an extracted text. *)
Definition clean_text (raw : string) : string :=
  PyStr.replace carriage_return " "
    (PyStr.replace newline " " (PyStr.strip raw)).

(** The value one iteration of the loop stores under [field['name']]. *)
Definition extract_field (doc : document) (fld : field) : string :=
  let page_num := page fld in
  if (page_count doc <=? page_num)%Z then ""
  else
    match make_rect (rect_coords fld) with
    | Some r =>
        match get_text doc page_num r with
        | Some text => clean_text text
        | None => "ERROR"
        end
    | None => "ERROR"
    end.

(** One iteration of the loop: [extracted_data[field['name']] = ...]. *)
Definition store (doc : document) (extracted_data : gmap string string)
    (fld : field) : gmap string string :=
  <[name fld := extract_field doc fld]> extracted_data.

(** [extract_data_from_pdf]: [opened] is what [fitz.open] gave ([None]
    when it raised); the result is [None] for Python's [None]. *)
Definition extract_data_from_pdf (opened : option document)
    (fields : list field) : option (gmap string string) :=
  match opened with
  | None => None
  | Some doc =>
      Some (foldl (store doc) ∅ fields)
  end.

(** Printed by one iteration of the extraction loop, if anything. *)
Definition field_message (doc : document) (fld : field) : option message :=
  let page_num := page fld in
  if (page_count doc <=? page_num)%Z
  then Some (PageOutOfRange page_num (name fld))
  else
    match make_rect (rect_coords fld) with
    | Some r =>
        match get_text doc page_num r with
        | Some _ => None
        | None => Some (FieldError (name fld))
        end
    | None => Some (FieldError (name fld))
    end.

(** The warnings and errors [extract_data_from_pdf] prints for an opened
    document. *)
Definition extraction_messages (doc : document) (fields : list field)
  : list message :=
  omap (field_message doc) fields.

End Extractor.

Arguments field : clear implicits.
Arguments rect : clear implicits.
Arguments document : clear implicits.

(** ** [main] from the configuration to the extracted rows *)

(** [s.split(" ")[0]]: the text before the first space. *)
Fixpoint first_word (s : string) : string :=
  match s with
  | EmptyString => EmptyString
  | String c s' =>
      if Ascii.eqb c " " then EmptyString else String c (first_word s')
  end.

(** The test [f.lower().endswith('.pdf')] on a name of the input folder. *)
Definition is_pdf (f : string) : bool := PyStr.endswith (PyStr.lower f) ".pdf".

(** [setup_directories]: the file system after the call and the value
    returned.  The folder is a plain name, so [os.makedirs] has no parent
    to create. *)
Definition setup_directories (f : gmap string entry) (input_dir : string)
  : gmap string entry * bool :=
  if Os.exists_ f input_dir then (f, true)
  else (<[input_dir := Dir]> f, false).

Section Collect.

Context {coord : Type}.

(** The body of [for filename in pdf_files], on the rows collected so far;
    [None] stands for the [KeyError] of [data["FECHA"]].  [open_pdf] is
    what [fitz.open] gives for a path. *)
Definition collect_step (open_pdf : string -> option (document coord))
    (input_folder : string) (fields : list (field coord))
    (all_data : list (gmap string string)) (filename : string)
  : option (list (gmap string string)) :=
  let pdf_path := Os.join input_folder filename in
  match extract_data_from_pdf (open_pdf pdf_path) fields with
  | Some data =>
      if bool_decide (data = ∅) then Some all_data
      else
        match data !! "FECHA" with
        | Some fecha =>
            let data1 := <["FECHA" := first_word fecha]> data in
            let data2 := <["Source File" := filename]> data1 in
            Some (all_data ++ [data2])
        | None => None
        end
  | None => Some all_data
  end.

Definition collect_rows (open_pdf : string -> option (document coord))
    (input_folder : string) (fields : list (field coord))
    (pdf_files : list string) : option (list (gmap string string)) :=
  foldl (fun acc filename =>
           acc ≫= (fun all_data =>
             collect_step open_pdf input_folder fields all_data filename))
        (Some []) pdf_files.

(** [main]: [config] is what [load_config] returned, with its list of
    field descriptors; [listing] is [os.listdir] of the input folder.  The
    listing of something that is no folder raises. *)
Definition main `{NumStr} (f : gmap string entry) (now : Os.datetime)
    (config : option (list (field coord))) (listing : list string)
    (open_pdf : string -> option (document coord))
    (template_path typed : string) : run :=
  match config with
  | None => Run f Returned None
  | Some extraction_fields =>
      let input_folder := "input_pdfs" in
      let '(f1, ready) := setup_directories f input_folder in
      if negb ready then Run f1 Returned None
      else
        match f1 !! input_folder with
        | Some Dir =>
            let pdf_files := filter (fun name => is_pdf name = true) listing in
            match pdf_files with
            | [] => Run f1 Returned None
            | _ :: _ =>
                match collect_rows open_pdf input_folder extraction_fields
                        pdf_files with
                | None => Run f1 Raised None
                | Some all_data =>
                    main_excel f1 now template_path typed all_data
                end
            end
        | _ => Run f1 Raised None
        end
  end.

End Collect.

(** ** Vocabulary of the statements *)

(** A file system that still has every entry of an earlier one, folders
    being folders still. *)
Definition keeps_entries (f f' : gmap string entry) : Prop :=
  forall p, (f !! p = Some Dir -> f' !! p = Some Dir)
            /\ (is_Some (f !! p) -> is_Some (f' !! p)).

(** The sheet [workbook[name]], if there is one. *)
Definition sheet_named (wb : workbook) (name : string) : option sheet :=
  snd <$> wb_getitem wb name.

(** The sheet a category key is served from: the sheet of that name, or
    else the template under the new title. *)
Definition source_sheet (wb : workbook) (batea_name : string) : option sheet :=
  match sheet_named wb batea_name with
  | Some sh => Some sh
  | None => set_title batea_name <$> sheet_named wb TEMPLATE
  end.

(** The category key update mode reads from a row. *)
Definition update_key (data_row : gmap string string) : string :=
  PyStr.strip (dict_get data_row "BATEA" "").



(** The rows written one after the other at row 5 of one sheet. *)
Definition write_rows (header_map : gmap string positive) (sh : sheet)
    (rows : list (gmap string string)) : sheet :=
  foldl (fun s data_row => write_data_to_sheet s header_map data_row 5) sh rows.

(** The rows of the groups filed under one key, in processing order. *)
Definition rows_for (batea_name : string)
    (groups : list (string * list (gmap string string)))
  : list (gmap string string) :=
  List.concat (snd <$> filter (fun g => g.1 = batea_name) groups).




(** ** Sample data

    A small template with three headers in row 4, two extracted rows, and
    the workbooks and file systems the examples below run on. *)

Module Sample.

Definition text_cell (s : string) : cell := Cell (VStr s) default_font default_border.

Definition template_cells : gmap (positive * positive) cell :=
  <[(4, 1)%positive := text_cell "FECHA"]>
    (<[(4, 2)%positive := text_cell "BATEA"]>
       (<[(4, 3)%positive := text_cell "KG NETOS"]> ∅)).

Definition template_sheet : sheet := Sheet "TEMPLATE" template_cells.

Definition headers : gmap string positive :=
  <["FECHA" := 1%positive]> (<["BATEA" := 2%positive]> (<["KG NETOS" := 3%positive]> ∅)).

Definition mk_row (fecha batea kg src : string) : gmap string string :=
  <["FECHA" := fecha]> (<["BATEA" := batea]> (<["KG NETOS" := kg]>
    (<["Source File" := src]> ∅))).

Definition row_a1 := mk_row "2024-01-05" "A-102" "1500.50" "a1.pdf".
Definition row_a2 := mk_row "2024-01-06" "A-102" "980" "a2.pdf".
Definition row_b := mk_row "2024-01-07" "B-7" "12.5" "b.pdf".

(** A sheet that already holds one data row. *)
Definition old_sheet : sheet :=
  Sheet "A-102" (<[(5, 1)%positive := text_cell "2023-12-31"]> template_cells).

Definition wb_template_only : workbook := Workbook [template_sheet] 0.
Definition wb_existing : workbook := Workbook [old_sheet; template_sheet] 0.
Definition wb_no_template : workbook := Workbook [old_sheet] 0.


(** The template file, with its one sheet under the name Excel gave it. *)
Definition plantilla : workbook := Workbook [Sheet "Hoja1" template_cells] 0.

Definition now : Os.datetime := Os.Datetime 2024 3 9 14 5 7 250.

(** Only the template file: a run creates the output. *)
Definition fs_new : gmap string entry :=
  <["PLANTILLA.xlsx" := File (Xlsx plantilla) false]> ∅.

(** The template file and an output file from an earlier run. *)
Definition fs_update : gmap string entry :=
  <["datos.xlsx" := File (Xlsx wb_existing) false]> fs_new.

(** The same, with a file in the place of the backup directory. *)
Definition fs_old_is_file : gmap string entry :=
  <[".old" := File Other false]> fs_update.

(** A two-page document: the text of page 0 comes with line breaks and
    white space around it, page 1 cannot be read. *)
Definition doc : document Z :=
  Document 2 (fun page_num _ =>
                if (page_num =? 0)%Z
                then Some (String " " (String "A" (String newline
                             (String "B" (String carriage_return
                                (String "C" (String " " EmptyString)))))))
                else None).

Definition fld_ok : field Z := Field "FECHA" 0 [10; 20; 110; 40]%Z.
Definition fld_far : field Z := Field "BATEA" 7 [10; 50; 110; 70]%Z.
Definition fld_unreadable : field Z := Field "EMPRESA" 1 [10; 80; 110; 100]%Z.
Definition fld_short : field Z := Field "KG NETOS" 0 [10; 80]%Z.

(** A second descriptor of the name FECHA, on a page the document lacks. *)
Definition fld_again : field Z := Field "FECHA" 7 [10; 20; 110; 40]%Z.

(** What [fitz.open] gives: one file of the input folder is a readable
    document. *)
Definition open_pdf (path : string) : option (document Z) :=
  if String.eqb path "input_pdfs/a.pdf" then Some doc else None.

(** The input folder is there, next to the template file. *)
Definition fs_input : gmap string entry := <["input_pdfs" := Dir]> fs_new.

(** The output file of an earlier run is open in Excel. *)
Definition fs_locked : gmap string entry :=
  <["datos.xlsx" := File (Xlsx wb_existing) true]> fs_new.

(** Any formatting of numbers will do for the examples: no header cell
    of the samples is a number. *)
#[export] Instance plain_num_str : NumStr :=
  fun x =>
    match x with
    | PyFloat.Finite _ _ _ => "0.0"
    | PyFloat.Inf neg => if neg then "-inf" else "inf"
    | PyFloat.NaN => "nan"
    end.

End Sample.

(** * Properties *)

(** ** Strings *)

Section StringFacts.

Import PyStr.

Lemma rstrip_last s c : last (rstrip s) = Some c -> is_space c = false.
Proof.
  induction s as [|a s IH]; simpl; [discriminate|].
  destruct (is_space a) eqn:Ha; simpl.
  - destruct (rstrip s) as [|b t] eqn:E; simpl; [discriminate|].
    intros H. apply IH. exact H.
  - destruct (rstrip s) as [|b t] eqn:E; simpl.
    + intros [= <-]. exact Ha.
    + intros H. apply IH. exact H.
Qed.

Lemma lstrip_head s c : head (lstrip s) = Some c -> is_space c = false.
Proof.
  induction s as [|a s IH]; simpl; [discriminate|].
  destruct (is_space a) eqn:Ha; [exact IH|].
  simpl. intros [= <-]. exact Ha.
Qed.

Lemma rstrip_head s c :
  head s = Some c -> is_space c = false -> head (rstrip s) = Some c.
Proof.
  destruct s as [|a s]; simpl; [discriminate|].
  intros [= ->] Hc. rewrite Hc. reflexivity.
Qed.

Lemma strip_trimmed s : trimmed (strip s).
Proof.
  unfold trimmed, strip. split; intros c Hc.
  - destruct (head (lstrip s)) as [a|] eqn:E.
    + pose proof (lstrip_head _ _ E) as Ha.
      rewrite (rstrip_head _ _ E Ha) in Hc. congruence.
    + destruct (lstrip s); simpl in *; discriminate.
  - eapply rstrip_last; eauto.
Qed.

Lemma replace_head a b s :
  head (replace a b s) = (fun c => if Ascii.eqb c a then b else c) <$> head s.
Proof. destruct s; reflexivity. Qed.

Lemma replace_last a b s :
  last (replace a b s) = (fun c => if Ascii.eqb c a then b else c) <$> last s.
Proof.
  induction s as [|c s IH]; [reflexivity|].
  simpl. destruct s as [|d s]; [reflexivity|]. exact IH.
Qed.

(** Replacing a white-space character leaves a trimmed string trimmed. *)
Lemma replace_trimmed a b s :
  is_space a = true -> trimmed s -> trimmed (replace a b s).
Proof.
  intros Ha [Hh Hl]. split; intros c.
  - rewrite replace_head. destruct (head s) as [d|]; simpl; [|discriminate].
    intros [= <-]. specialize (Hh d eq_refl).
    destruct (Ascii.eqb_spec d a) as [->|]; congruence.
  - rewrite replace_last. destruct (last s) as [d|]; simpl; [|discriminate].
    intros [= <-]. specialize (Hl d eq_refl).
    destruct (Ascii.eqb_spec d a) as [->|]; congruence.
Qed.

Lemma replace_removes a b s :
  a <> b -> contains_char a (replace a b s) = false.
Proof.
  intros Hab. induction s as [|c s IH]; [reflexivity|].
  simpl. rewrite IH, orb_false_r.
  destruct (Ascii.eqb_spec c a) as [->|Hc].
  - apply Ascii.eqb_neq. congruence.
  - apply Ascii.eqb_neq. exact Hc.
Qed.

Lemma replace_keeps_absent a b c s :
  b <> c -> contains_char c s = false -> contains_char c (replace a b s) = false.
Proof.
  intros Hbc. induction s as [|d s IH]; [reflexivity|].
  simpl. intros [Hd Hs]%orb_false_iff. rewrite (IH Hs), orb_false_r.
  destruct (Ascii.eqb d a); [apply Ascii.eqb_neq; exact Hbc | exact Hd].
Qed.

Lemma replace_length a b s : String.length (replace a b s) = String.length s.
Proof. induction s; simpl; congruence. Qed.

End StringFacts.

(** ** Field extractor *)

Section ExtractorFacts.

Context {coord : Type}.
Implicit Types (doc : document coord) (fld : field coord).

Lemma clean_text_no_newline raw :
  PyStr.contains_char newline (clean_text raw) = false.
Proof.
  unfold clean_text. apply replace_keeps_absent; [discriminate|].
  apply replace_removes. discriminate.
Qed.

Lemma clean_text_no_cr raw :
  PyStr.contains_char carriage_return (clean_text raw) = false.
Proof. unfold clean_text. apply replace_removes. discriminate. Qed.

Lemma clean_text_trimmed raw : PyStr.trimmed (clean_text raw).
Proof.
  unfold clean_text.
  apply replace_trimmed; [reflexivity|].
  apply replace_trimmed; [reflexivity|].
  apply strip_trimmed.
Qed.

(** Each line break becomes one space: the length does not change. *)
Lemma clean_text_length raw :
  String.length (clean_text raw) = String.length (PyStr.strip raw).
Proof. unfold clean_text. by rewrite !replace_length. Qed.

(** Every value the extractor stores is free of line breaks and trimmed:
    the two sentinels are, and so is a cleaned text. *)
Lemma extract_field_clean doc fld :
  PyStr.contains_char newline (extract_field doc fld) = false
  /\ PyStr.contains_char carriage_return (extract_field doc fld) = false
  /\ PyStr.trimmed (extract_field doc fld).
Proof.
  assert (Hconst : forall s : string,
             PyStr.contains_char newline s = false ->
             PyStr.contains_char carriage_return s = false ->
             PyStr.strip s = s ->
             PyStr.contains_char newline s = false
             /\ PyStr.contains_char carriage_return s = false
             /\ PyStr.trimmed s).
  { intros s H1 H2 H3. repeat split; try done.
    - intros c Hc. rewrite <- H3 in Hc. exact (proj1 (strip_trimmed s) c Hc).
    - intros c Hc. rewrite <- H3 in Hc. exact (proj2 (strip_trimmed s) c Hc). }
  unfold extract_field.
  destruct (page_count doc <=? page fld)%Z; [apply Hconst; reflexivity|].
  destruct (make_rect (rect_coords fld)) as [r|]; [|apply Hconst; reflexivity].
  destruct (get_text doc (page fld) r) as [text|]; [|apply Hconst; reflexivity].
  split; [apply clean_text_no_newline|].
  split; [apply clean_text_no_cr | apply clean_text_trimmed].
Qed.

Lemma store_fold_dom doc fields (d : gmap string string) :
  dom (foldl (store doc) d fields)
  = dom d ∪ list_to_set (name <$> fields).
Proof.
  revert d. induction fields as [|fld fields IH]; intros d; simpl.
  - set_solver.
  - rewrite IH. unfold store. rewrite dom_insert_L. set_solver.
Qed.

Lemma store_fold_values doc fields (d : gmap string string) n v :
  foldl (store doc) d fields !! n = Some v ->
  d !! n = Some v \/ exists fld, fld ∈ fields /\ name fld = n /\ v = extract_field doc fld.
Proof.
  revert d. induction fields as [|fld fields IH]; intros d; simpl.
  - by left.
  - intros [H|(g & Hg & Hn & Hv)]%IH.
    + unfold store in H. destruct (decide (name fld = n)) as [<-|Hne].
      * rewrite lookup_insert_eq in H. injection H as <-.
        right. exists fld. split; [left|done].
      * rewrite lookup_insert_ne in H by done. by left.
    + right. exists g. split; [by right|done].
Qed.

Lemma store_fold_absent doc fields (d : gmap string string) n :
  n ∉ name <$> fields -> foldl (store doc) d fields !! n = d !! n.
Proof.
  revert d. induction fields as [|fld fields IH]; intros d Hn; simpl; [done|].
  rewrite fmap_cons in Hn. apply not_elem_of_cons in Hn as [Hne Hn].
  rewrite (IH _ Hn). unfold store. by rewrite lookup_insert_ne.
Qed.

Lemma store_fold_agree doc fields (d1 d2 : gmap string string) n :
  d1 !! n = d2 !! n ->
  foldl (store doc) d1 fields !! n = foldl (store doc) d2 fields !! n.
Proof.
  revert d1 d2. induction fields as [|fld fields IH]; intros d1 d2 H; simpl; [done|].
  apply IH. unfold store.
  destruct (decide (name fld = n)) as [<-|Hne].
  - by rewrite !lookup_insert_eq.
  - by rewrite !lookup_insert_ne.
Qed.

(** C8: for a document that opens and any list of descriptors, the result
    has exactly the descriptor names as keys (one entry per name), and every
    value in it is the value computed for a descriptor of that name, has no
    newline and no carriage return left, and has no white space at either
    end; a text that was read has each line break turned into one space (its
    length is that of the stripped text). *)
Theorem extraction_entries doc (fields : list (field coord)) :
  exists d,
    extract_data_from_pdf (Some doc) fields = Some d
    /\ dom d = list_to_set (name <$> fields)
    /\ (forall n v, d !! n = Some v ->
          (exists fld, fld ∈ fields /\ name fld = n /\ v = extract_field doc fld)
          /\ PyStr.contains_char newline v = false
          /\ PyStr.contains_char carriage_return v = false
          /\ PyStr.trimmed v)
    /\ (forall raw, String.length (clean_text raw) = String.length (PyStr.strip raw)).
Proof.
  eexists. split; [reflexivity|].
  split; [|split].
  - rewrite store_fold_dom. set_solver.
  - intros n v [H|(fld & Hin & Hn & ->)]%store_fold_values.
    + by rewrite lookup_empty in H.
    + split; [by exists fld|]. apply extract_field_clean.
  - apply clean_text_length.
Qed.

(** C9: extraction of an opened document always returns a row; a
    descriptor whose page is out of range is stored as the empty string, with
    the out-of-range warning, and one whose rectangle is malformed or whose
    text cannot be read is stored as ["ERROR"], with the error line; either
    way the entries under the other names are those of the extraction without
    this descriptor, and so are the lines printed for the other
    descriptors. *)
Theorem per_field_failures doc (before after : list (field coord)) fld :
  name fld ∉ name <$> after ->
  exists d d',
    extract_data_from_pdf (Some doc) (before ++ fld :: after) = Some d
    /\ extract_data_from_pdf (Some doc) (before ++ after) = Some d'
    /\ ((page_count doc <= page fld)%Z ->
        d !! name fld = Some ""
        /\ field_message doc fld = Some (PageOutOfRange (page fld) (name fld)))
    /\ ((page fld < page_count doc)%Z ->
        (make_rect (rect_coords fld) = None
         \/ exists r, make_rect (rect_coords fld) = Some r
                      /\ get_text doc (page fld) r = None) ->
        d !! name fld = Some "ERROR"
        /\ field_message doc fld = Some (FieldError (name fld)))
    /\ (forall n, n <> name fld -> d !! n = d' !! n)
    /\ extraction_messages doc (before ++ fld :: after)
       = extraction_messages doc before
         ++ option_list (field_message doc fld)
         ++ extraction_messages doc after.
Proof.
  intros Hlast. do 2 eexists. split; [reflexivity|]. split; [reflexivity|].
  simpl.
  rewrite !foldl_app. simpl.
  assert (Hhere : foldl (store doc) (store doc (foldl (store doc) ∅ before) fld) after
                  !! name fld = Some (extract_field doc fld)).
  { rewrite store_fold_absent by done. unfold store. by rewrite lookup_insert_eq. }
  split; [|split; [|split]].
  - intros Hp. rewrite Hhere. unfold extract_field, field_message.
    by rewrite (proj2 (Z.leb_le _ _) Hp).
  - intros Hp Hfail. rewrite Hhere. unfold extract_field, field_message.
    rewrite (proj2 (Z.leb_gt _ _) Hp).
    destruct Hfail as [->|(r & -> & ->)]; by split.
  - intros n Hn. apply store_fold_agree. unfold store. by rewrite lookup_insert_ne.
  - unfold extraction_messages. rewrite omap_app. f_equal.
    cbn [omap list_omap]. by destruct (field_message doc fld).
Qed.

End ExtractorFacts.

(** ** Worksheet operations *)

Section SheetFacts.

Implicit Types (sh s : sheet) (r c idx : positive) (f : cell -> cell).

#[global] Instance shift_row_inj idx : Inj (=) (=) (shift_row idx).
Proof.
  intros [r1 c1] [r2 c2]. unfold shift_row. simpl.
  destruct (Pos.leb_spec idx r1), (Pos.leb_spec idx r2);
    intros [= H1 H2]; f_equal; lia.
Qed.

Lemma insert_rows_above idx sh r c :
  (r < idx)%positive -> cells (insert_rows idx sh) !! (r, c) = cells sh !! (r, c).
Proof.
  intros Hr. unfold insert_rows. simpl.
  replace (r, c) with (shift_row idx (r, c)) at 1.
  - apply (lookup_kmap (shift_row idx)).
  - unfold shift_row. simpl. destruct (Pos.leb_spec idx r); [lia|done].
Qed.

Lemma insert_rows_below idx sh r c :
  (idx <= r)%positive ->
  cells (insert_rows idx sh) !! (Pos.succ r, c) = cells sh !! (r, c).
Proof.
  intros Hr. unfold insert_rows. simpl.
  replace (Pos.succ r, c) with (shift_row idx (r, c)).
  - apply (lookup_kmap (shift_row idx)).
  - unfold shift_row. simpl. destruct (Pos.leb_spec idx r); [done|lia].
Qed.

Lemma insert_rows_at idx sh c : cells (insert_rows idx sh) !! (idx, c) = None.
Proof.
  unfold insert_rows. simpl. apply (lookup_kmap_None (shift_row idx)).
  intros [r c']. unfold shift_row. simpl.
  destruct (Pos.leb_spec idx r); intros [= H1 H2]; lia.
Qed.

Lemma upd_cell_lookup f r c sh r' c' :
  cells (upd_cell f r c sh) !! (r', c')
  = if decide ((r, c) = (r', c')) then Some (f (cell_at sh r c))
    else cells sh !! (r', c').
Proof. unfold upd_cell. simpl. apply lookup_insert. Qed.

Lemma upd_cell_other_row f r c sh r' c' :
  r <> r' -> cells (upd_cell f r c sh) !! (r', c') = cells sh !! (r', c').
Proof. intros H. rewrite upd_cell_lookup. case_decide; [congruence|done]. Qed.

Lemma upd_cell_at f r c sh r' c' :
  cell_at (upd_cell f r c sh) r' c'
  = if decide ((r, c) = (r', c')) then f (cell_at sh r c) else cell_at sh r' c'.
Proof.
  unfold cell_at at 1. rewrite upd_cell_lookup. by case_decide.
Qed.

Lemma upd_cell_title f r c sh : title (upd_cell f r c sh) = title sh.
Proof. reflexivity. Qed.

(** Two sheets that agree on a row still do after the same cell update. *)
Lemma upd_cell_same_row f r c s1 s2 r1 r2 :
  (forall c', cells s1 !! (r1, c') = cells s2 !! (r2, c')) ->
  forall c', cells (upd_cell f r1 c s1) !! (r1, c')
             = cells (upd_cell f r2 c s2) !! (r2, c').
Proof.
  intros H c'. rewrite !upd_cell_lookup.
  destruct (decide (c = c')) as [->|Hc].
  - rewrite !decide_True by done. unfold cell_at. by rewrite H.
  - rewrite !decide_False by congruence. apply H.
Qed.

End SheetFacts.

(** ** Row writer *)

Section WriterFacts.

Implicit Types (sh s : sheet) (hm : gmap string positive)
  (data : gmap string string) (r c target : positive).

Lemma write_field_unfold hm data target sh field_name header :
  write_field hm data target sh (field_name, header)
  = match hm !! header with
    | Some col =>
        upd_cell (fun x => set_font black_font
                    (set_value (typed_value (dict_get data field_name "")) x))
                 target col sh
    | None => sh
    end.
Proof.
  unfold write_field, typed_value, dict_get.
  destruct (hm !! header); [|done].
  by destruct (PyFloat.float (default "" (data !! field_name))).
Qed.

Lemma write_field_title hm data target sh fh :
  title (write_field hm data target sh fh) = title sh.
Proof.
  destruct fh as [f h]. rewrite write_field_unfold. by destruct (hm !! h).
Qed.

Lemma write_field_other_row hm data target sh fh r c :
  r <> target ->
  cells (write_field hm data target sh fh) !! (r, c) = cells sh !! (r, c).
Proof.
  intros Hr. destruct fh as [f h]. rewrite write_field_unfold.
  destruct (hm !! h); [|done]. by apply upd_cell_other_row.
Qed.

Lemma write_field_border hm data target sh fh r c :
  cell_border (cell_at (write_field hm data target sh fh) r c)
  = cell_border (cell_at sh r c).
Proof.
  destruct fh as [f h]. rewrite write_field_unfold.
  destruct (hm !! h) as [col|]; [|done].
  rewrite upd_cell_at. case_decide as E; [|done]. by injection E as <- <-.
Qed.

Lemma write_field_same_row hm data s1 s2 r1 r2 fh :
  (forall c, cells s1 !! (r1, c) = cells s2 !! (r2, c)) ->
  forall c, cells (write_field hm data r1 s1 fh) !! (r1, c)
            = cells (write_field hm data r2 s2 fh) !! (r2, c).
Proof.
  intros H. destruct fh as [f h]. rewrite !write_field_unfold.
  destruct (hm !! h) as [col|]; [|done]. by apply upd_cell_same_row.
Qed.

Lemma fields_fold_title hm data target l sh :
  title (foldl (write_field hm data target) sh l) = title sh.
Proof.
  revert sh. induction l as [|fh l IH]; intros sh; simpl; [done|].
  by rewrite IH, write_field_title.
Qed.

Lemma fields_fold_other_row hm data target l sh r c :
  r <> target ->
  cells (foldl (write_field hm data target) sh l) !! (r, c) = cells sh !! (r, c).
Proof.
  intros Hr. revert sh. induction l as [|fh l IH]; intros sh; simpl; [done|].
  by rewrite IH, write_field_other_row.
Qed.

Lemma fields_fold_border hm data target l sh r c :
  cell_border (cell_at (foldl (write_field hm data target) sh l) r c)
  = cell_border (cell_at sh r c).
Proof.
  revert sh. induction l as [|fh l IH]; intros sh; simpl; [done|].
  by rewrite IH, write_field_border.
Qed.

Lemma fields_fold_same_row hm data l s1 s2 r1 r2 :
  (forall c, cells s1 !! (r1, c) = cells s2 !! (r2, c)) ->
  forall c, cells (foldl (write_field hm data r1) s1 l) !! (r1, c)
            = cells (foldl (write_field hm data r2) s2 l) !! (r2, c).
Proof.
  revert s1 s2. induction l as [|fh l IH]; intros s1 s2 H; simpl; [done|].
  apply IH. by apply write_field_same_row.
Qed.

Lemma borders_fold_title target l sh :
  title (foldl (border_step target) sh l) = title sh.
Proof.
  revert sh. induction l as [|k l IH]; intros sh; simpl; [done|]. by rewrite IH.
Qed.

Lemma borders_fold_other_row target l sh r c :
  r <> target ->
  cells (foldl (border_step target) sh l) !! (r, c) = cells sh !! (r, c).
Proof.
  intros Hr. revert sh. induction l as [|k l IH]; intros sh; simpl; [done|].
  rewrite IH. by apply upd_cell_other_row.
Qed.

Lemma borders_fold_same_row l s1 s2 r1 r2 :
  (forall c, cells s1 !! (r1, c) = cells s2 !! (r2, c)) ->
  forall c, cells (foldl (border_step r1) s1 l) !! (r1, c)
            = cells (foldl (border_step r2) s2 l) !! (r2, c).
Proof.
  revert s1 s2. induction l as [|k l IH]; intros s1 s2 H; simpl; [done|].
  apply IH. by apply upd_cell_same_row.
Qed.

Lemma borders_fold_border target l sh c :
  c ∈ l ->
  cell_border (cell_at (foldl (border_step target) sh l) target c) = thin_border.
Proof.
  revert sh. induction l as [|k l IH]; intros sh Hc; [by inversion Hc|].
  simpl. destruct (decide (c ∈ l)) as [Hl|Hl]; [by apply IH|].
  apply elem_of_cons in Hc as [->|?]; [|done].
  clear IH. revert sh. induction l as [|k' l IH]; intros sh; simpl.
  - unfold border_step. rewrite upd_cell_at. by rewrite decide_True.
  - apply not_elem_of_cons in Hl as [Hne Hl].
    specialize (IH Hl (upd_cell (set_border thin_border) target k' sh)).
    (* the update at column k' commutes with the one at column k *)
    assert (Hsw : forall s, cell_border (cell_at (foldl (border_step target) s l) target k)
                       = cell_border (cell_at s target k)).
    { clear -Hl. intros s. revert s. induction l as [|j l IHl]; intros s; simpl; [done|].
      apply not_elem_of_cons in Hl as [Hj Hl]. rewrite (IHl Hl).
      unfold border_step. rewrite upd_cell_at. rewrite decide_False by congruence. done. }
    rewrite Hsw. unfold border_step. rewrite !upd_cell_at.
    rewrite decide_False by congruence. by rewrite decide_True.
Qed.

Lemma range_pos_elem lo hi (c : positive) :
  (0 < lo)%nat ->
  c ∈ range_pos lo hi <-> (lo <= Pos.to_nat c < hi)%nat.
Proof.
  intros Hlo. unfold range_pos. rewrite list_elem_of_fmap. split.
  - intros (n & -> & Hn). apply elem_of_seq in Hn.
    rewrite Nat2Pos.id by lia. lia.
  - intros H. exists (Pos.to_nat c). split; [by rewrite Pos2Nat.id|].
    apply elem_of_seq. lia.
Qed.

Lemma write_unfold sh hm data target :
  write_data_to_sheet sh hm data target
  = foldl (write_field hm data target)
      (foldl (border_step target) (insert_rows target sh) (range_pos 1 15))
      field_to_header_map.
Proof. reflexivity. Qed.

Lemma write_title sh hm data target :
  title (write_data_to_sheet sh hm data target) = title sh.
Proof. by rewrite write_unfold, fields_fold_title, borders_fold_title. Qed.

Lemma write_above sh hm data target r c :
  (r < target)%positive ->
  cells (write_data_to_sheet sh hm data target) !! (r, c) = cells sh !! (r, c).
Proof.
  intros Hr. rewrite write_unfold.
  rewrite fields_fold_other_row, borders_fold_other_row by lia.
  by apply insert_rows_above.
Qed.

Lemma write_below sh hm data target r c :
  (target <= r)%positive ->
  cells (write_data_to_sheet sh hm data target) !! (Pos.succ r, c)
  = cells sh !! (r, c).
Proof.
  intros Hr. rewrite write_unfold.
  rewrite fields_fold_other_row, borders_fold_other_row by lia.
  by apply insert_rows_below.
Qed.

(** The row the writer fills depends on the header map and the data only:
    nothing of the sheet written to shows in it. *)
Lemma write_new_row s1 s2 hm data r1 r2 c :
  cells (write_data_to_sheet s1 hm data r1) !! (r1, c)
  = cells (write_data_to_sheet s2 hm data r2) !! (r2, c).
Proof.
  rewrite !write_unfold. revert c.
  apply fields_fold_same_row, borders_fold_same_row.
  intros c. by rewrite !insert_rows_at.
Qed.

Lemma write_border sh hm data target c :
  (c <= 14)%positive ->
  cell_border (cell_at (write_data_to_sheet sh hm data target) target c)
  = thin_border.
Proof.
  intros Hc. rewrite write_unfold, fields_fold_border.
  apply borders_fold_border. apply range_pos_elem; lia.
Qed.

End WriterFacts.

Section WriterSpec.

Implicit Types (sh s : sheet) (hm : gmap string positive)
  (data : gmap string string) (r c target col : positive).





(** C7: a call of the writer moves every cell of a row at or below the
    target one row down and leaves the rows above in place, so no cell that
    was there is lost or overwritten; the row at the target index holds
    nothing of the old sheet (it is the row the writer would fill in an empty
    sheet), and its cells in columns 1 to 14 carry the thin black border
    whatever the header map and the data are. *)
Theorem writer_inserts_row sh hm data target :
  let sh' := write_data_to_sheet sh hm data target in
  title sh' = title sh
  /\ (forall r c, (r < target)%positive -> cells sh' !! (r, c) = cells sh !! (r, c))
  /\ (forall r c, (target <= r)%positive ->
        cells sh' !! (Pos.succ r, c) = cells sh !! (r, c))
  /\ (forall c, cells sh' !! (target, c)
        = cells (write_data_to_sheet (Sheet "" ∅) hm data target) !! (target, c))
  /\ (forall c, (c <= 14)%positive ->
        cell_border (cell_at sh' target c) = thin_border)
  /\ thin_border = Border (Side (Some "thin") (Some "000000"))
                          (Side (Some "thin") (Some "000000"))
                          (Side (Some "thin") (Some "000000"))
                          (Side (Some "thin") (Some "000000")).
Proof.
  intros sh'. subst sh'.
  split; [apply write_title|].
  split; [intros r c; apply write_above|].
  split; [intros r c; apply write_below|].
  split; [intros c; apply write_new_row|].
  split; [intros c; apply write_border|reflexivity].
Qed.

Lemma writer_inserts_row_witness :
  cells (write_data_to_sheet Sample.old_sheet Sample.headers Sample.row_a1 5)
    !! (6, 1)%positive = Some (Sample.text_cell "2023-12-31")
  /\ cells (write_data_to_sheet Sample.old_sheet Sample.headers Sample.row_a1 5)
       !! (4, 2)%positive = Some (Sample.text_cell "BATEA")
  /\ cell_border (cell_at (write_data_to_sheet Sample.old_sheet Sample.headers
                             Sample.row_a1 5) 5 14) = thin_border.
Proof.
  pose proof (writer_inserts_row Sample.old_sheet Sample.headers Sample.row_a1 5)
    as (_ & Habove & Hbelow & _ & Hborder & _).
  split; [|split].
  - etrans; [apply (Hbelow 5 1)%positive; lia | reflexivity].
  - etrans; [apply (Habove 4 2)%positive; lia | reflexivity].
  - apply Hborder. lia.
Defined.

End WriterSpec.

(** ** Workbooks and the sheet provisioner *)

Section WorkbookFacts.

Implicit Types (wb : workbook) (sh s src : sheet) (n k : string) (i j : nat)
  (f g : sheet -> sheet).

Lemma wb_getitem_Some wb n i s :
  wb_getitem wb n = Some (i, s) ->
  sheets wb !! i = Some s /\ title s = n.
Proof. unfold wb_getitem. intros (? & ? & _)%list_find_Some. done. Qed.

Lemma has_sheet_getitem wb n :
  has_sheet wb n = true <-> is_Some (wb_getitem wb n).
Proof.
  unfold has_sheet, sheetnames, wb_getitem.
  rewrite bool_decide_eq_true, list_elem_of_fmap. split.
  - intros (s & -> & Hs). by eapply list_find_elem_of.
  - intros [[i s] (Hi & Ht & _)%list_find_Some].
    exists s. split; [done|]. by eapply list_elem_of_lookup_2.
Qed.





Lemma has_sheet_named wb n : has_sheet wb n = true <-> is_Some (sheet_named wb n).
Proof.
  rewrite has_sheet_getitem. unfold sheet_named. by rewrite fmap_is_Some.
Qed.







Lemma with_sheet_fold {A} (g : A -> sheet -> sheet) i (l : list A) wb :
  foldl (fun w a => with_sheet (g a) i w) wb l
  = with_sheet (fun s => foldl (fun s a => g a s) s l) i wb.
Proof.
  revert wb. induction l as [|a l IH]; intros wb; simpl.
  - unfold with_sheet. rewrite list_alter_id by done. by destruct wb.
  - rewrite IH. unfold with_sheet. simpl. by rewrite list_alter_alter_eq.
Qed.


(** With the template sheet in the workbook every key is served. *)
Lemma source_sheet_template wb k :
  has_sheet wb TEMPLATE = true -> is_Some (source_sheet wb k).
Proof.
  intros [ts Hts]%has_sheet_named. unfold source_sheet.
  destruct (sheet_named wb k); [by eexists|]. rewrite Hts. by eexists.
Qed.



End WorkbookFacts.

(** ** Header maps *)

Section HeaderFacts.

Context `{NumStr}.

Implicit Types (sh s : sheet) (hr r c : positive) (hm : gmap string positive).

Lemma max_column_bound sh r c x :
  cells sh !! (r, c) = Some x -> (c <= max_column sh)%positive.
Proof.
  unfold max_column. revert r c x.
  apply (map_fold_weak_ind
           (fun acc (m : gmap (positive * positive) cell) =>
              forall r c x, m !! (r, c) = Some x -> (c <= acc)%positive)).
  - intros r c x. by rewrite lookup_empty.
  - intros [r' c'] y m acc Hnone IH r c x. simpl.
    rewrite lookup_insert. case_decide as E.
    + injection E as -> ->. lia.
    + intros Hm. specialize (IH _ _ _ Hm). lia.
Qed.







End HeaderFacts.

(** ** The write loops *)

Section LoopFacts.

Context `{NumStr}.

Implicit Types (wb : workbook) (sh s src : sheet) (n k : string) (i j : nat)
  (hm : gmap string positive) (r c : positive)
  (row : gmap string string) (rows : list (gmap string string))
  (groups : list (string * list (gmap string string))).







(** One group of create mode, seen through the sheet names. *)
Lemma create_group_unfold wb k rows :
  create_group wb (k, rows)
  = match get_or_create_sheet wb k TEMPLATE with
    | (wb1, None) => wb1
    | (wb1, Some i) =>
        with_sheet (fun s => write_rows (get_header_map (sheet_of wb1 i) 4) s rows)
                   i wb1
    end.
Proof.
  unfold create_group.
  destruct (get_or_create_sheet wb k TEMPLATE) as [wb1 [i|]]; [|done].
  apply (with_sheet_fold
           (fun row s => write_data_to_sheet s
                           (get_header_map (sheet_of wb1 i) 4) row 5)).
Qed.




(** Update mode writes each kept row as a group of one. *)
Lemma update_row_group wb row :
  update_row wb row
  = if PyStr.is_empty (update_key row) then wb
    else create_group wb (update_key row, [row]).
Proof. reflexivity. Qed.



End LoopFacts.

Section GroupFacts.

Implicit Types (k : string) (row : gmap string string)
  (rows : list (gmap string string))
  (d groups : list (string * list (gmap string string))).

Lemma rows_for_nil k : rows_for k [] = [].
Proof. reflexivity. Qed.

Lemma rows_for_cons k k' rows groups :
  rows_for k ((k', rows) :: groups)
  = (if decide (k' = k) then rows else []) ++ rows_for k groups.
Proof.
  unfold rows_for. rewrite filter_cons. simpl.
  case_decide; simpl; done.
Qed.


Lemma rows_for_absent k groups : k ∉ groups.*1 -> rows_for k groups = [].
Proof.
  induction groups as [|[k' rows] groups IH]; [done|].
  rewrite fmap_cons, not_elem_of_cons. intros [Hne Hk]. simpl in Hne.
  rewrite rows_for_cons. rewrite decide_False by congruence. by apply IH.
Qed.

Lemma group_add_keys k row d :
  (group_add k row d).*1 = if decide (k ∈ d.*1) then d.*1 else d.*1 ++ [k].
Proof.
  induction d as [|[k' rows] d IH].
  - case_decide as E; [by apply elem_of_nil in E | done].
  - cbn [group_add]. destruct (String.eqb_spec k' k) as [->|Hne].
    + rewrite decide_True; [done|]. rewrite fmap_cons. by left.
    + rewrite !fmap_cons, IH. cbn [fst].
      destruct (decide (k ∈ d.*1)) as [Hin|Hin].
      * rewrite decide_True; [done|]. by right.
      * rewrite decide_False; [done|].
        rewrite not_elem_of_cons. split; [congruence|done].
Qed.

Lemma group_add_NoDup k row d : NoDup d.*1 -> NoDup (group_add k row d).*1.
Proof.
  intros Hd. rewrite group_add_keys. case_decide; [done|].
  apply NoDup_app. split_and!; [done| |apply NoDup_singleton].
  intros x Hx ->%list_elem_of_singleton. done.
Qed.

Lemma group_add_rows_for k k' row d :
  NoDup d.*1 ->
  rows_for k (group_add k' row d)
  = rows_for k d ++ (if decide (k' = k) then [row] else []).
Proof.
  induction d as [|[k1 rows] d IH]; intros Hd; simpl.
  - rewrite rows_for_cons, !rows_for_nil. by rewrite app_nil_r.
  - rewrite fmap_cons in Hd. apply NoDup_cons in Hd as [Hk1 Hd]. simpl in Hk1.
    destruct (String.eqb_spec k1 k') as [->|Hne].
    + rewrite !rows_for_cons. case_decide as E.
      * subst k. rewrite (rows_for_absent _ _ Hk1). by rewrite !app_nil_r.
      * by rewrite app_nil_r.
    + rewrite !rows_for_cons, IH by done. by rewrite app_assoc.
Qed.

Lemma group_by_snoc (all_data : list (gmap string string)) row :
  group_by_batea (all_data ++ [row])
  = group_add (group_key row) row (group_by_batea all_data).
Proof. unfold group_by_batea. by rewrite foldl_app. Qed.

Lemma group_by_NoDup (all_data : list (gmap string string)) :
  NoDup (group_by_batea all_data).*1.
Proof.
  induction all_data as [|row l IH] using rev_ind; [constructor|].
  rewrite group_by_snoc. by apply group_add_NoDup.
Qed.

(** The group filed under a key holds the rows of that key in input order. *)
Lemma group_by_rows_for (all_data : list (gmap string string)) k :
  rows_for k (group_by_batea all_data)
  = filter (fun row => group_key row = k) all_data.
Proof.
  induction all_data as [|row l IH] using rev_ind; [done|].
  rewrite group_by_snoc, group_add_rows_for by apply group_by_NoDup.
  rewrite IH, filter_app, filter_cons, filter_nil. by case_decide.
Qed.

Lemma group_by_keys (all_data : list (gmap string string)) k :
  k ∈ (group_by_batea all_data).*1 <-> exists row, row ∈ all_data /\ group_key row = k.
Proof.
  induction all_data as [|row l IH] using rev_ind.
  - split; [by intros ?%elem_of_nil | by intros (? & ?%elem_of_nil & _)].
  - rewrite group_by_snoc, group_add_keys.
    assert (Hstep : k ∈ (group_by_batea l).*1 ++ [group_key row]
                    <-> exists row0, row0 ∈ l ++ [row] /\ group_key row0 = k).
    { rewrite elem_of_app, IH, list_elem_of_singleton. split.
      - intros [(r0 & Hr0 & <-)| ->].
        + exists r0. split; [|done]. apply elem_of_app. by left.
        + exists row. split; [|done]. apply elem_of_app. right. by left.
      - intros (r0 & [Hr0|Hr0%list_elem_of_singleton]%elem_of_app & <-).
        + left. by exists r0.
        + right. by subst r0. }
    case_decide as Hin; [|done].
    rewrite <- Hstep, elem_of_app, list_elem_of_singleton.
    split; [by left|]. intros [Hl | ->]; done.
Qed.



End GroupFacts.

Section LoopInvariant.

Context `{NumStr}.

Implicit Types (wb : workbook) (sh s src : sheet) (n k : string) (i j : nat)
  (hm : gmap string positive) (r c : positive)
  (row : gmap string string) (rows : list (gmap string string))
  (groups : list (string * list (gmap string string))).











End LoopInvariant.

(** ** Update mode and create mode *)

Section LoopSpec.

Context `{NumStr}.

Implicit Types (wb : workbook) (sh s src : sheet) (n k : string) (i j : nat)
  (hm : gmap string positive) (r c : positive)
  (row : gmap string string) (rows all_data : list (gmap string string)).


(** Sheet names along the loop. *)
Lemma has_sheet_elem wb n : has_sheet wb n = true <-> n ∈ sheetnames wb.
Proof. unfold has_sheet. apply bool_decide_eq_true. Qed.






(** C5: [get_or_create_sheet] returns the sheet whose title is exactly the
    key when there is one (a key is among the sheet names only as the same
    string), leaving the workbook as it is; when neither the key nor the
    template names a sheet it returns [None] and leaves the workbook as it
    is, and then update mode skips the row and create mode skips the group:
    nothing is written, and the lines printed end with the skip. *)
Theorem provisioner_lookup wb k template_name :
  (forall i s, wb_getitem wb k = Some (i, s) ->
     get_or_create_sheet wb k template_name = (wb, Some i)
     /\ sheets wb !! i = Some s /\ title s = k)
  /\ (k ∈ sheetnames wb <-> exists i s, wb_getitem wb k = Some (i, s))
  /\ (k ∉ sheetnames wb -> template_name ∉ sheetnames wb ->
      get_or_create_sheet wb k template_name = (wb, None))
  /\ (k ∉ sheetnames wb -> TEMPLATE ∉ sheetnames wb ->
      (forall row, update_key row = k -> update_row wb row = wb)
      /\ (forall row, update_key row = k -> k <> "" ->
            update_row_messages wb row
            = [SheetNotFound k TEMPLATE; TemplateSheetMissing TEMPLATE;
               SkippingPdf (source_file row)])
      /\ (forall rows,
            create_group wb (k, rows) = wb
            /\ create_group_messages wb (k, rows)
               = [CreatingSheet k; SheetNotFound k TEMPLATE;
                  TemplateSheetMissing TEMPLATE; SkippingBatea k])).
Proof.
  split_and!.
  - intros i s Hi. pose proof (wb_getitem_Some _ _ _ _ Hi) as [Hlk Ht].
    split; [|done]. unfold get_or_create_sheet.
    rewrite (proj2 (has_sheet_getitem wb k)) by by eexists.
    by rewrite Hi.
  - rewrite <- has_sheet_elem, has_sheet_getitem. split.
    + intros [[i s] Hi]. by exists i, s.
    + intros (i & s & Hi). by eexists.
  - intros Hk Ht. unfold get_or_create_sheet, has_sheet.
    by rewrite !bool_decide_eq_false_2.
  - intros Hk Ht.
    assert (Hnone : get_or_create_sheet wb k TEMPLATE = (wb, None)).
    { unfold get_or_create_sheet, has_sheet. by rewrite !bool_decide_eq_false_2. }
    assert (Hmsg : provision_messages wb k TEMPLATE
                   = [SheetNotFound k TEMPLATE; TemplateSheetMissing TEMPLATE]).
    { unfold provision_messages, has_sheet. by rewrite !bool_decide_eq_false_2. }
    split_and!.
    + intros row Hrow. rewrite update_row_group, Hrow.
      destruct (PyStr.is_empty k); [done|].
      by rewrite create_group_unfold, Hnone.
    + intros row Hrow Hne. unfold update_row_messages. fold (update_key row).
      rewrite Hrow. destruct k; [done|]. cbn [PyStr.is_empty].
      by rewrite Hmsg, Hnone.
    + intros rows. split; [by rewrite create_group_unfold, Hnone|].
      unfold create_group_messages. by rewrite Hmsg, Hnone.
Qed.

End LoopSpec.

(** ** The reserved sheet name as a category key *)

Section ReservedName.

Context `{NumStr}.

Implicit Types (wb : workbook) (sh s src ts : sheet) (n k : string) (i j t : nat)
  (hm : gmap string positive) (r c : positive)
  (row : gmap string string) (rows all_data : list (gmap string string)).












End ReservedName.

(** ** Paths *)

Section PathFacts.

Import PyStr Os.

Implicit Types (s t p : string) (a : ascii).

Lemma contains_char_app a s t :
  contains_char a (s +:+ t) = contains_char a s || contains_char a t.
Proof.
  induction s as [|x s IH]; [done|].
  simpl. by rewrite IH, orb_assoc.
Qed.

Lemma contains_char_substring a s i n :
  contains_char a s = false -> contains_char a (String.substring i n s) = false.
Proof.
  revert i n. induction s as [|x s IH]; intros i n Hs.
  - by destruct i, n.
  - simpl in Hs. apply orb_false_iff in Hs as [Hx Hs].
    destruct i as [|i]; destruct n as [|n]; simpl; try done.
    + by rewrite Hx, (IH 0%nat n Hs).
    + by apply IH.
    + by apply IH.
Qed.

Lemma contains_char_drop a s n :
  contains_char a s = false -> contains_char a (drop n s) = false.
Proof. apply contains_char_substring. Qed.

Lemma rfind_absent a s : contains_char a s = false -> rfind a s = None.
Proof.
  induction s as [|x s IH]; [done|].
  simpl. intros [Hx Hs]%orb_false_iff. by rewrite (IH Hs), Hx.
Qed.

Lemma head_absent a s : contains_char a s = false -> head s <> Some a.
Proof.
  destruct s as [|x s]; [done|].
  simpl. intros [Hx _]%orb_false_iff [= ->]. by rewrite Ascii.eqb_refl in Hx.
Qed.

Lemma digit_not_slash n : Ascii.eqb (digit n) "/" = false.
Proof.
  unfold digit. pose proof (Nat.mod_upper_bound n 10 ltac:(lia)) as Hlt.
  revert Hlt. generalize (n mod 10)%nat. intros m Hlt.
  do 10 (destruct m as [|m]; [reflexivity|]). lia.
Qed.

Lemma strftime_no_slash now : contains_char "/" (strftime now) = false.
Proof.
  unfold strftime, pad4, pad2.
  repeat (rewrite contains_char_app || cbn [contains_char]).
  rewrite !digit_not_slash. reflexivity.
Qed.

Lemma splitext_no_slash p :
  contains_char "/" p = false ->
  contains_char "/" (splitext p).1 = false
  /\ contains_char "/" (splitext p).2 = false.
Proof.
  intros Hp. unfold splitext.
  destruct (rfind "." p) as [dot|]; [|by split].
  destruct (_ && _); simpl; [|by split].
  split; [by apply contains_char_substring | by apply contains_char_drop].
Qed.

(** Where the backup of a plain file name goes. *)
Lemma backup_path_flat now p :
  contains_char "/" p = false ->
  backup_path now p
  = ".old/" +:+ (splitext p).1 +:+ "_" +:+ strftime now +:+ (splitext p).2
  /\ dirname (backup_path now p) = ".old"
  /\ contains_char "/" (backup_path now p) = true.
Proof.
  intros Hp. destruct (splitext_no_slash p Hp) as [Hb He].
  unfold backup_path. destruct (splitext p) as [base ext]. simpl in *.
  set (b := base +:+ "_" +:+ strftime now +:+ ext).
  assert (Hbs : contains_char "/" b = false).
  { subst b. rewrite !contains_char_app, Hb, He, strftime_no_slash. reflexivity. }
  assert (Hj : join ".old" b = ".old/" +:+ b).
  { unfold join. rewrite bool_decide_eq_false_2 by by apply head_absent. reflexivity. }
  rewrite Hj. split; [reflexivity|]. clearbody b. split.
  - unfold dirname.
    change (".old/" +:+ b)
      with (String "." (String "o" (String "l" (String "d" (String "/" b))))).
    set (q := String "." (String "o" (String "l" (String "d" (String "/" b))))).
    assert (Hr : rfind "/" q = Some 4%nat).
    { subst q. cbn [rfind]. rewrite (rfind_absent _ _ Hbs). reflexivity. }
    assert (Hsub : String.substring 0 5 q = ".old/") by by destruct b.
    rewrite Hr, Hsub. reflexivity.
  - reflexivity.
Qed.

(** The time stamp has the resolution of a second. *)
Lemma strftime_seconds y mo d h mi sec us us' :
  strftime (Datetime y mo d h mi sec us) = strftime (Datetime y mo d h mi sec us').
Proof. reflexivity. Qed.

End PathFacts.

(** ** Runs of [main] *)

Section RunFacts.

Context `{NumStr}.

Implicit Types (f : gmap string entry) (wb : workbook) (p out tpl : string)
  (now : Os.datetime) (all_data : list (gmap string string)).

Lemma save_and_exit_cases f out wb :
  handed (save_and_exit f out wb) = Some (remove_template wb)
  /\ ((how (save_and_exit f out wb) = Saved
       /\ final_fs (save_and_exit f out wb)
          = <[out := File (Xlsx (remove_template wb)) false]> f)
      \/ (how (save_and_exit f out wb) = SaveFailed
          /\ final_fs (save_and_exit f out wb) = f)).
Proof.
  unfold save_and_exit, save.
  destruct (sheets (remove_template wb)); simpl; [by split; [|right]|].
  destruct (Os.writable f out); simpl; split; try done; [by left | by right].
Qed.

(** Update mode touches the file system in the backup block and in the
    final save only. *)
Lemma update_mode_fs f now tpl out all_data :
  final_fs (update_mode f now tpl out all_data) = backup_existing f now out
  \/ exists wb,
       how (update_mode f now tpl out all_data) = Saved
       /\ final_fs (update_mode f now tpl out all_data)
          = <[out := File (Xlsx wb) false]> (backup_existing f now out).
Proof.
  unfold update_mode.
  destruct (load_workbook _ out) as [wb|]; [|by left].
  destruct (ensure_template _ tpl wb) as [wb1|]; [|by left].
  destruct (save_and_exit_cases (backup_existing f now out) out
              (update_rows wb1 all_data)) as [_ [[Hs ->]|[_ ->]]].
  - right. by eexists.
  - by left.
Qed.

Lemma main_excel_update f now tpl typed all_data :
  all_data <> [] ->
  Os.exists_ f tpl = true ->
  is_Some (f !! output_name typed) ->
  main_excel f now tpl typed all_data
  = update_mode f now tpl (output_name typed) all_data.
Proof.
  intros Hd Ht Ho. unfold main_excel. destruct all_data; [done|].
  rewrite Ht. simpl. unfold Os.exists_ at 1. by rewrite bool_decide_eq_true_2.
Qed.


(** The backup block when nothing stands in its way. *)
Lemma backup_existing_done f now out c locked :
  f !! out = Some (File c locked) ->
  PyStr.contains_char "/" out = false ->
  (f !! ".old" = None \/ f !! ".old" = Some Dir) ->
  f !! backup_path now out = None ->
  backup_existing f now out
  = <[backup_path now out := File c false]> (<[".old" := Dir]> f).
Proof.
  intros Hout Hflat Hold Hfree.
  destruct (backup_path_flat now out Hflat) as (_ & Hdir & Hslash).
  assert (Hne1 : out <> ".old").
  { intros ->. destruct Hold as [Ho|Ho]; rewrite Ho in Hout; discriminate. }
  assert (Hne2 : backup_path now out <> ".old").
  { intros E. rewrite E in Hslash. discriminate. }
  unfold backup_existing.
  assert (Hmk : Os.makedirs f ".old" = Some (<[".old" := Dir]> f)).
  { unfold Os.makedirs. destruct Hold as [->| Ho]; [done|].
    rewrite Ho. by rewrite insert_id. }
  rewrite Hmk. unfold Os.copy.
  rewrite lookup_insert_ne, Hout by done.
  rewrite (lookup_insert_ne _ ".old" (backup_path now out)), Hfree by done.
  unfold Os.writable, Os.parent_ok. rewrite Hdir. simpl.
  rewrite lookup_insert_eq.
  rewrite lookup_insert_ne, Hfree by done. done.
Qed.

(** C3, as the code has it: the backup block runs once, before the
    workbook is loaded, and what it raises is caught.  When the output is a
    plain file name, [.old] is not a file and no entry is in the way, an
    update-mode run leaves one copy of the output file as it was before the
    run, in [.old], under the name of the file with the time stamp (to the
    second) before the extension; the copy is there however the run ends, a
    failed save included, and apart from it, the directory and the output
    file nothing in the file system changes.  When [.old] cannot be made the
    block leaves the file system as it was and the run goes on without a
    backup. *)
Theorem backup_before_update f now tpl typed all_data c locked :
  let out := output_name typed in
  all_data <> [] ->
  Os.exists_ f tpl = true ->
  f !! out = Some (File c locked) ->
  PyStr.contains_char "/" out = false ->
  (f !! ".old" = None \/ f !! ".old" = Some Dir) ->
  f !! backup_path now out = None ->
  let res := main_excel f now tpl typed all_data in
  final_fs res !! backup_path now out = Some (File c false)
  /\ backup_path now out
     = ".old/" +:+ (Os.splitext out).1 +:+ "_" +:+ Os.strftime now
       +:+ (Os.splitext out).2
  /\ final_fs res !! ".old" = Some Dir
  /\ (forall p, p <> ".old" -> p <> backup_path now out -> p <> out ->
        final_fs res !! p = f !! p)
  /\ (forall y mo d h mi sec us us',
        Os.strftime (Os.Datetime y mo d h mi sec us)
        = Os.strftime (Os.Datetime y mo d h mi sec us'))
  /\ (forall f' c' locked', f' !! ".old" = Some (File c' locked') ->
        backup_existing f' now out = f').
Proof.
  intros out Hd Ht Hout Hflat Hold Hfree res.
  destruct (backup_path_flat now out Hflat) as (Hpath & Hdir & Hslash).
  assert (Hne : backup_path now out <> out).
  { intros E. rewrite E in Hslash. congruence. }
  assert (Hne1 : out <> ".old").
  { intros E. rewrite E in Hout. destruct Hold as [Ho|Ho]; rewrite Ho in Hout; discriminate. }
  assert (Hne2 : backup_path now out <> ".old").
  { intros E. rewrite E in Hslash. discriminate. }
  subst res. rewrite main_excel_update by (done || by eexists).
  fold out.
  pose proof (backup_existing_done f now out c locked Hout Hflat Hold Hfree) as Hb.
  split_and!.
  - destruct (update_mode_fs f now tpl out all_data) as [->|(wb & _ & ->)];
      rewrite Hb.
    + by rewrite lookup_insert_eq.
    + rewrite lookup_insert_ne by done. by rewrite lookup_insert_eq.
  - exact Hpath.
  - destruct (update_mode_fs f now tpl out all_data) as [->|(wb & _ & ->)];
      rewrite Hb.
    + rewrite lookup_insert_ne by done. by rewrite lookup_insert_eq.
    + rewrite !lookup_insert_ne by done. by rewrite lookup_insert_eq.
  - intros p Hp1 Hp2 Hp3.
    destruct (update_mode_fs f now tpl out all_data) as [->|(wb & _ & ->)];
      rewrite Hb; by rewrite !lookup_insert_ne.
  - intros. reflexivity.
  - intros f' c' locked' Hf'. unfold backup_existing, Os.makedirs. by rewrite Hf'.
Qed.

End RunFacts.

Section SavedSheets.

Context `{NumStr}.

Implicit Types (f : gmap string entry) (wb : workbook) (p out tpl : string)
  (now : Os.datetime) (all_data : list (gmap string string)).









End SavedSheets.

Section SavedSheetsSpec.

Context `{NumStr}.

Implicit Types (f : gmap string entry) (wb : workbook) (p out tpl : string)
  (now : Os.datetime) (all_data : list (gmap string string)).




End SavedSheetsSpec.

(** ** More on strings *)

Section MoreStrings.

Import PyStr.

Lemma string_length_app (s t : string) :
  String.length (s +:+ t) = (String.length s + String.length t)%nat.
Proof. induction s as [|c s IH]; [done|]. simpl. by rewrite IH. Qed.

Lemma substring_all (s : string) : String.substring 0 (String.length s) s = s.
Proof. induction s as [|c s IH]; [done|]. simpl. by rewrite IH. Qed.

Lemma substring_skip (s t : string) n :
  String.substring (String.length s) n (s +:+ t) = String.substring 0 n t.
Proof. induction s as [|c s IH]; [done|]. apply IH. Qed.

Lemma endswith_app (s t : string) : endswith (s +:+ t) t = true.
Proof.
  unfold endswith. rewrite string_length_app.
  replace (String.length s + String.length t - String.length t)%nat
    with (String.length s) by lia.
  rewrite substring_skip, substring_all, String.eqb_refl.
  rewrite andb_true_r. apply Nat.leb_le. lia.
Qed.

Lemma lower_app (s t : string) : lower (s +:+ t) = lower s +:+ lower t.
Proof. induction s as [|c s IH]; [done|]. simpl. by rewrite IH. Qed.

Lemma lstrip_id s : (forall c, head s = Some c -> is_space c = false) -> lstrip s = s.
Proof. destruct s as [|c s]; [done|]. intros Hh. simpl. by rewrite (Hh c). Qed.

Lemma last_cons c s : s <> "" -> last (String c s) = last s.
Proof. by destruct s. Qed.

Lemma rstrip_id s : (forall c, last s = Some c -> is_space c = false) -> rstrip s = s.
Proof.
  induction s as [|c s IH]; [done|]. intros Hl. simpl.
  destruct s as [|c' s'].
  - simpl. rewrite (Hl c) by done. done.
  - rewrite IH; [|intros x Hx; apply Hl; by rewrite last_cons].
    simpl. by rewrite andb_false_r.
Qed.

Lemma strip_id s : trimmed s -> strip s = s.
Proof.
  intros [Hh Hl]. unfold strip. rewrite (lstrip_id s Hh). by apply rstrip_id.
Qed.

Lemma first_word_no_space s : contains_char " " (first_word s) = false.
Proof.
  induction s as [|c s IH]; [done|]. simpl.
  destruct (Ascii.eqb c " ") eqn:E; [done|]. simpl. by rewrite E.
Qed.

End MoreStrings.

(** X10: the name under which the workbook is written always ends in
    [.xlsx], in whatever letter case the operator typed it, and a name that
    went through the rule once is left as it is by a second pass. *)
Theorem output_name_xlsx typed :
  PyStr.endswith (PyStr.lower (output_name typed)) ".xlsx" = true
  /\ output_name (output_name typed) = output_name typed.
Proof.
  assert (H : PyStr.endswith (PyStr.lower (output_name typed)) ".xlsx" = true).
  { unfold output_name.
    destruct (PyStr.endswith (PyStr.lower typed) ".xlsx") eqn:E; [done|].
    rewrite lower_app. apply endswith_app. }
  split; [done|]. unfold output_name at 1. by rewrite H.
Qed.

(** ** From the PDF files to the rows *)

Section CollectFacts.

Context {coord : Type}.
Implicit Types (fields : list (field coord)) (doc : document coord)
  (open_pdf : string -> option (document coord)).

Lemma first_word_split s :
  exists rest, s = first_word s +:+ rest
               /\ (rest = "" \/ PyStr.head rest = Some " "%char).
Proof.
  induction s as [|c s (rest & IH & Hr)]; [exists ""; by split; [|left]|].
  simpl. destruct (Ascii.eqb c " ") eqn:E.
  - exists (String c s). split; [done|]. right.
    apply Ascii.eqb_eq in E. by subst.
  - exists rest. split; [|done].
    change (String c s = String c (first_word s +:+ rest)). by rewrite <- IH.
Qed.

Lemma collect_rows_snoc open_pdf folder fields l x :
  collect_rows open_pdf folder fields (l ++ [x])
  = collect_rows open_pdf folder fields l
    ≫= (fun all_data => collect_step open_pdf folder fields all_data x).
Proof. unfold collect_rows. by rewrite foldl_app. Qed.

Lemma extracted_nonempty doc fields :
  fields <> [] -> foldl (store doc) ∅ fields <> ∅.
Proof.
  intros Hf E. apply (f_equal dom) in E.
  rewrite store_fold_dom, dom_empty_L in E.
  destruct fields as [|fld fields]; [done|].
  simpl in E. set_solver.
Qed.

Lemma extracted_trimmed doc fields n v :
  foldl (store doc) ∅ fields !! n = Some v -> PyStr.strip v = v.
Proof.
  intros [Hd|(fld & _ & _ & ->)]%store_fold_values; [done|].
  apply strip_id. apply extract_field_clean.
Qed.

Lemma collect_step_unreadable open_pdf folder fields all_data filename :
  open_pdf (Os.join folder filename) = None \/ fields = [] ->
  collect_step open_pdf folder fields all_data filename = Some all_data.
Proof.
  unfold collect_step, extract_data_from_pdf. intros [->| ->]; [done|].
  destruct (open_pdf _); [|done]. simpl. by rewrite bool_decide_eq_true_2.
Qed.

Lemma collect_step_row open_pdf folder fields all_data filename doc :
  "FECHA" ∈ name <$> fields ->
  open_pdf (Os.join folder filename) = Some doc ->
  exists fecha,
    foldl (store doc) ∅ fields !! "FECHA" = Some fecha
    /\ collect_step open_pdf folder fields all_data filename
       = Some (all_data ++ [<["Source File" := filename]>
                              (<["FECHA" := first_word fecha]>
                                 (foldl (store doc) ∅ fields))]).
Proof.
  intros Hin Hopen. unfold collect_step, extract_data_from_pdf. rewrite Hopen.
  assert (Hd : is_Some (foldl (store doc) ∅ fields !! "FECHA")).
  { apply elem_of_dom. rewrite store_fold_dom. set_solver. }
  destruct Hd as [fecha Hd]. exists fecha. split; [done|].
  rewrite bool_decide_eq_false_2.
  - by rewrite Hd.
  - intros E. by rewrite E in Hd.
Qed.

Lemma collect_step_keyerror open_pdf folder fields all_data filename doc :
  fields <> [] -> "FECHA" ∉ name <$> fields ->
  open_pdf (Os.join folder filename) = Some doc ->
  collect_step open_pdf folder fields all_data filename = None.
Proof.
  intros Hne Hnin Hopen. unfold collect_step, extract_data_from_pdf.
  rewrite Hopen. rewrite bool_decide_eq_false_2 by by apply extracted_nonempty.
  by rewrite store_fold_absent.
Qed.

(** X2: when the configuration has a descriptor named FECHA, the loop over
    the PDF files never fails and yields one row for each file that could be
    opened, in the order of the listing, files that cannot be opened being
    skipped.  The row of a file carries the file name under [Source File],
    under FECHA the text of the extracted date up to its first space (what
    is cut off is empty or starts with that space), and every other
    extracted entry as it was; its category key in update mode is the
    extracted BATEA text itself, which needs no further trimming. *)
Theorem collect_rows_spec open_pdf folder fields pdf_files :
  "FECHA" ∈ name <$> fields ->
  exists all_data,
    collect_rows open_pdf folder fields pdf_files = Some all_data
    /\ Forall2
         (fun row filename =>
            exists doc d,
              open_pdf (Os.join folder filename) = Some doc
              /\ extract_data_from_pdf (Some doc) fields = Some d
              /\ row !! "Source File" = Some filename
              /\ (exists fecha rest,
                    d !! "FECHA" = Some (fecha +:+ rest)
                    /\ row !! "FECHA" = Some fecha
                    /\ PyStr.contains_char " " fecha = false
                    /\ (rest = "" \/ PyStr.head rest = Some " "%char))
              /\ (forall n, n <> "FECHA" -> n <> "Source File" ->
                    row !! n = d !! n)
              /\ update_key row = dict_get d "BATEA" "")
         all_data
         (filter (fun filename => is_Some (open_pdf (Os.join folder filename)))
                 pdf_files).
Proof.
  intros Hin. induction pdf_files as [|x l (all_data & IH & HF)] using rev_ind.
  - exists []. split; [done|]. constructor.
  - rewrite collect_rows_snoc, IH, filter_app. simpl.
    destruct (open_pdf (Os.join folder x)) as [doc|] eqn:Hopen.
    + destruct (collect_step_row open_pdf folder fields all_data x doc Hin Hopen)
        as (fecha & Hd & ->).
      eexists. split; [done|].
      rewrite filter_cons_True by by rewrite Hopen.
      rewrite filter_nil. apply Forall2_app; [done|].
      constructor; [|constructor].
      exists doc, (foldl (store doc) ∅ fields). split_and!; try done.
      * by rewrite lookup_insert_eq.
      * destruct (first_word_split fecha) as (rest & Hs & Hr).
        exists (first_word fecha), rest. split_and!; try done.
        -- by rewrite Hd, Hs at 1.
        -- rewrite lookup_insert_ne by done. by rewrite lookup_insert_eq.
        -- apply first_word_no_space.
      * intros n H1 H2. by rewrite !lookup_insert_ne by done.
      * unfold update_key, dict_get. rewrite !lookup_insert_ne by done.
        destruct (foldl (store doc) ∅ fields !! "BATEA") as [v|] eqn:Hb; [|done].
        simpl. by eapply extracted_trimmed.
    + rewrite collect_step_unreadable by by left.
      exists all_data. split; [done|].
      rewrite filter_cons_False by (rewrite Hopen; by intros [? ?]).
      by rewrite filter_nil, app_nil_r.
Qed.

Lemma collect_rows_keyerror open_pdf folder fields pdf_files filename :
  fields <> [] -> "FECHA" ∉ name <$> fields ->
  filename ∈ pdf_files ->
  is_Some (open_pdf (Os.join folder filename)) ->
  collect_rows open_pdf folder fields pdf_files = None.
Proof.
  intros Hne Hnin Hin [doc Hopen].
  induction pdf_files as [|x l IH] using rev_ind; [by apply elem_of_nil in Hin|].
  rewrite collect_rows_snoc.
  apply elem_of_app in Hin as [Hin|Hin].
  - by rewrite IH.
  - apply list_elem_of_singleton in Hin as <-.
    destruct (collect_rows open_pdf folder fields l) as [a|]; [|done].
    simpl. by eapply collect_step_keyerror.
Qed.

Lemma collect_rows_nothing open_pdf folder fields pdf_files :
  fields = [] \/
  (forall filename, filename ∈ pdf_files ->
     open_pdf (Os.join folder filename) = None) ->
  collect_rows open_pdf folder fields pdf_files = Some [].
Proof.
  intros Hno.
  induction pdf_files as [|x l IH] using rev_ind; [done|].
  rewrite collect_rows_snoc, IH.
  - simpl. apply collect_step_unreadable.
    destruct Hno as [->|Hno]; [by right|left]. apply Hno. set_solver.
  - destruct Hno as [->|Hno]; [by left|right]. intros y Hy. apply Hno. set_solver.
Qed.

End CollectFacts.

(** ** [main] before the workbook *)

Section MainFacts.

Context `{NumStr} {coord : Type}.
Implicit Types (fields : list (field coord))
  (open_pdf : string -> option (document coord)).

(** X3: with a configuration that has descriptors but none named FECHA,
    [main] stops with the [KeyError] of [data["FECHA"]] as soon as the input
    folder lists a PDF file that can be opened: nothing is written, whatever
    the template and the output name are. *)
Theorem main_missing_fecha f now fields listing open_pdf tpl typed filename :
  f !! "input_pdfs" = Some Dir ->
  fields <> [] ->
  "FECHA" ∉ name <$> fields ->
  filename ∈ listing ->
  is_pdf filename = true ->
  is_Some (open_pdf (Os.join "input_pdfs" filename)) ->
  main f now (Some fields) listing open_pdf tpl typed = Run f Raised None.
Proof.
  intros Hdir Hne Hnin Hin Hpdf Hopen. unfold main, setup_directories, Os.exists_.
  rewrite bool_decide_eq_true_2 by by rewrite Hdir.
  simpl. rewrite Hdir.
  assert (Hin' : filename ∈ filter (fun name => is_pdf name = true) listing).
  { by apply list_elem_of_filter. }
  rewrite (collect_rows_keyerror _ _ _ _ filename) by done.
  destruct (filter _ listing); [by apply elem_of_nil in Hin'|done].
Qed.

(** X1: [main] ends without touching any workbook when the configuration
    has no descriptor, or when no name of the listing that ends in [.pdf]
    (in any letter case) can be opened.  The file system is then as it
    was, but for the input folder, which is created when it was missing; in
    that case the listing is not even read. *)
Theorem main_without_rows f now fields listing open_pdf tpl typed :
  (forall c locked, f !! "input_pdfs" <> Some (File c locked)) ->
  fields = [] \/
  (forall filename, filename ∈ listing -> is_pdf filename = true ->
     open_pdf (Os.join "input_pdfs" filename) = None) ->
  main f now (Some fields) listing open_pdf tpl typed
  = Run (if Os.exists_ f "input_pdfs" then f else <["input_pdfs" := Dir]> f)
        Returned None.
Proof.
  intros Hfile Hno. unfold main, setup_directories, Os.exists_.
  destruct (f !! "input_pdfs") as [[c locked|]|] eqn:Hd.
  - by destruct (Hfile c locked).
  - rewrite bool_decide_eq_true_2 by done. simpl. rewrite Hd.
    rewrite collect_rows_nothing.
    + by destruct (filter _ listing).
    + destruct Hno as [->|Hno]; [by left|right].
      intros y [Hy1 Hy2]%list_elem_of_filter. by apply Hno.
  - rewrite bool_decide_eq_false_2 by by intros [? ?]. done.
Qed.

End MainFacts.

(** ** The grouping of create mode *)

Section GroupSpec.

Implicit Types (row : gmap string string) (rows : list (gmap string string))
  (d groups : list (string * list (gmap string string))).

Lemma rows_for_unique d k rows :
  NoDup d.*1 -> (k, rows) ∈ d -> rows_for k d = rows.
Proof.
  induction d as [|[k' rows'] d IH]; intros Hnd Hin.
  - by apply elem_of_nil in Hin.
  - rewrite fmap_cons in Hnd. apply NoDup_cons in Hnd as [Hk' Hnd].
    rewrite rows_for_cons. apply elem_of_cons in Hin as [[= -> ->]|Hin].
    + rewrite decide_True by done. rewrite rows_for_absent by done.
      apply app_nil_r.
    + rewrite decide_False.
      * by apply IH.
      * intros ->. apply Hk'. apply list_elem_of_fmap. by exists (k, rows).
Qed.

Lemma group_key_nonempty row : group_key row <> "".
Proof.
  unfold group_key.
  destruct (PyStr.strip (dict_get row "BATEA" UNKNOWN_BATEA)); done.
Qed.

Lemma group_add_rows k row d :
  concat (group_add k row d).*2 ≡ₚ concat d.*2 ++ [row].
Proof.
  induction d as [|[k' rows'] d IH]; [done|]. simpl.
  destruct (String.eqb k' k); simpl.
  - rewrite <- !app_assoc. f_equiv. apply Permutation_app_comm.
  - rewrite IH. by rewrite app_assoc.
Qed.

(** X15: the grouping of create mode is a partition of the rows.  The keys
    of the groups are distinct and never empty, no group is empty, the group
    of a key holds exactly the rows of that key in their input order, every
    row is in the group of its key, and the groups together hold the rows of
    the input, none lost and none twice. *)
Theorem group_by_batea_partition (all_data : list (gmap string string)) :
  let groups := group_by_batea all_data in
  NoDup groups.*1
  /\ (forall k rows, (k, rows) ∈ groups ->
        k <> "" /\ rows <> []
        /\ rows = filter (fun row => group_key row = k) all_data)
  /\ (forall row, row ∈ all_data ->
        exists rows, (group_key row, rows) ∈ groups /\ row ∈ rows)
  /\ concat groups.*2 ≡ₚ all_data.
Proof.
  intros groups. pose proof (group_by_NoDup all_data) as Hnd.
  assert (Hrows : forall k rows, (k, rows) ∈ groups ->
            rows = filter (fun row => group_key row = k) all_data).
  { intros k rows Hin. rewrite <- group_by_rows_for. symmetry.
    by apply rows_for_unique. }
  split_and!; [done| | |].
  - intros k rows Hin.
    assert (Hk : k ∈ groups.*1).
    { apply list_elem_of_fmap. by exists (k, rows). }
    apply group_by_keys in Hk as (row & Hrow & <-).
    split; [apply group_key_nonempty|]. split; [|by apply Hrows].
    rewrite (Hrows _ _ Hin). intros E.
    assert (Hin' : row ∈ filter (fun row0 => group_key row0 = group_key row) all_data).
    { by apply list_elem_of_filter. }
    rewrite E in Hin'. by apply elem_of_nil in Hin'.
  - intros row Hrow.
    assert (Hk : group_key row ∈ groups.*1).
    { apply group_by_keys. by exists row. }
    apply list_elem_of_fmap in Hk as ([k rows] & Hk & Hin). simpl in Hk. subst k.
    exists rows. split; [done|]. rewrite (Hrows _ _ Hin).
    by apply list_elem_of_filter.
  - clear Hnd Hrows. subst groups. induction all_data as [|x l IH] using rev_ind; [done|].
    rewrite group_by_snoc, group_add_rows. by apply Permutation_app_tail.
Qed.

End GroupSpec.

(** ** What the loops and the provisioner leave alone *)

Section FrameFacts.

Context `{NumStr}.
Implicit Types (wb : workbook) (row : gmap string string)
  (groups : list (string * list (gmap string string))).






End FrameFacts.

Section ProvisionFacts.

Implicit Types (wb : workbook).






End ProvisionFacts.

(** ** Create mode from end to end *)

Section CreateSpec.

Context `{NumStr}.






End CreateSpec.

(** ** The header map and the columns of a written row *)

Section HeaderSpec.

Context `{NumStr}.
Implicit Types (sh : sheet) (hr c : positive) (h : string).

Lemma headers_upto_S sh hr n :
  headers_upto sh hr (S n)
  = add_header sh hr (headers_upto sh hr n) (Pos.of_nat (S n)).
Proof.
  unfold headers_upto, range_pos.
  replace (S (S n) - 1)%nat with (S n) by lia.
  replace (S n - 1)%nat with n by lia.
  by rewrite seq_S, fmap_app, foldl_app.
Qed.

Lemma headers_upto_lookup sh hr n h c :
  headers_upto sh hr n !! h = Some c
  <-> (Pos.to_nat c <= n)%nat
      /\ header_name (value (cell_at sh hr c)) = Some h
      /\ forall c', (c < c')%positive -> (Pos.to_nat c' <= n)%nat ->
           header_name (value (cell_at sh hr c')) <> Some h.
Proof.
  revert c. induction n as [|n IH]; intros c.
  - unfold headers_upto, range_pos. simpl. rewrite lookup_empty.
    split; [done|]. intros [Hc _]. lia.
  - rewrite headers_upto_S. unfold add_header.
    set (x := Pos.of_nat (S n)).
    assert (Hx : Pos.to_nat x = S n) by (subst x; lia).
    assert (Hstep : forall c', (Pos.to_nat c' <= S n)%nat ->
              c' = x \/ (Pos.to_nat c' <= n)%nat) by (intros c'; lia).
    destruct (header_name (value (cell_at sh hr x))) as [h0|] eqn:Ex.
    + destruct (decide (h = h0)) as [->|Hne].
      * rewrite lookup_insert_eq. split.
        -- intros [= <-]. split_and!; [lia|done|]. intros c'; lia.
        -- intros (Hc & Hh & Hlast). f_equal.
           destruct (Hstep c Hc) as [->|Hc']; [done|].
           exfalso. apply (Hlast x); [lia|lia|done].
      * rewrite lookup_insert_ne by done. rewrite IH. split.
        -- intros (Hc & Hh & Hlast). split_and!; [lia|done|].
           intros c' Hlt Hc'. destruct (Hstep c' Hc') as [->|Hc'']; [|by apply Hlast].
           rewrite Ex. congruence.
        -- intros (Hc & Hh & Hlast). split_and!; [|done|].
           ++ destruct (Hstep c Hc) as [->|Hc']; [|done]. congruence.
           ++ intros c' Hlt Hc'. apply Hlast; [done|lia].
    + rewrite IH. split.
      * intros (Hc & Hh & Hlast). split_and!; [lia|done|].
        intros c' Hlt Hc'. destruct (Hstep c' Hc') as [->|Hc'']; [|by apply Hlast].
        by rewrite Ex.
      * intros (Hc & Hh & Hlast). split_and!; [|done|].
        -- destruct (Hstep c Hc) as [->|Hc']; [|done]. congruence.
        -- intros c' Hlt Hc'. apply Hlast; [done|lia].
Qed.

Lemma headers_upto_None sh hr n h :
  headers_upto sh hr n !! h = None
  <-> forall c, (Pos.to_nat c <= n)%nat ->
        header_name (value (cell_at sh hr c)) <> Some h.
Proof.
  induction n as [|n IH].
  - unfold headers_upto, range_pos. simpl. rewrite lookup_empty.
    split; [|done]. intros _ c. lia.
  - rewrite headers_upto_S. unfold add_header.
    set (x := Pos.of_nat (S n)).
    assert (Hx : Pos.to_nat x = S n) by (subst x; lia).
    assert (Hstep : forall c', (Pos.to_nat c' <= S n)%nat ->
              c' = x \/ (Pos.to_nat c' <= n)%nat) by (intros c'; lia).
    destruct (header_name (value (cell_at sh hr x))) as [h0|] eqn:Ex.
    + rewrite lookup_insert_None, IH. split.
      * intros [Hall Hne] c Hc. destruct (Hstep c Hc) as [->|Hc']; [|by apply Hall].
        rewrite Ex. congruence.
      * intros Hall. split.
        -- intros c Hc. apply Hall. lia.
        -- intros ->. apply (Hall x); [lia|done].
    + rewrite IH. split.
      * intros Hall c Hc. destruct (Hstep c Hc) as [->|Hc']; [|by apply Hall].
        by rewrite Ex.
      * intros Hall c Hc. apply Hall. lia.
Qed.

Lemma header_beyond sh hr c :
  (Pos.to_nat (max_column sh) < Pos.to_nat c)%nat ->
  header_name (value (cell_at sh hr c)) = None.
Proof.
  intros Hc. unfold cell_at.
  destruct (cells sh !! (hr, c)) as [x|] eqn:E; [|done].
  apply max_column_bound in E. lia.
Qed.

Lemma header_map_Some sh hr h c :
  get_header_map sh hr !! h = Some c
  <-> header_name (value (cell_at sh hr c)) = Some h
      /\ forall c', (c < c')%positive ->
           header_name (value (cell_at sh hr c')) <> Some h.
Proof.
  unfold get_header_map. rewrite headers_upto_lookup. split.
  - intros (Hc & Hh & Hlast). split; [done|]. intros c' Hlt.
    destruct (decide (Pos.to_nat c' <= Pos.to_nat (max_column sh))%nat).
    + by apply Hlast.
    + rewrite header_beyond by lia. done.
  - intros [Hh Hlast]. split_and!; [|done|].
    + destruct (decide (Pos.to_nat c <= Pos.to_nat (max_column sh))%nat); [done|].
      rewrite header_beyond in Hh by lia. done.
    + intros c' Hlt _. by apply Hlast.
Qed.

Lemma header_map_None sh hr h :
  get_header_map sh hr !! h = None
  <-> forall c, header_name (value (cell_at sh hr c)) <> Some h.
Proof.
  unfold get_header_map. rewrite headers_upto_None. split.
  - intros Hall c.
    destruct (decide (Pos.to_nat c <= Pos.to_nat (max_column sh))%nat).
    + by apply Hall.
    + rewrite header_beyond by lia. done.
  - intros Hall c _. apply Hall.
Qed.

(** X5: the header map of a sheet has an entry for a text exactly when
    some cell of the header row holds it (after trimming; a cell without a
    value, with the empty string or with zero holds none), and the entry is
    the rightmost such column. *)
Theorem header_map_spec sh hr h :
  (forall c,
     get_header_map sh hr !! h = Some c
     <-> header_name (value (cell_at sh hr c)) = Some h
         /\ forall c', (c < c')%positive ->
              header_name (value (cell_at sh hr c')) <> Some h)
  /\ (get_header_map sh hr !! h = None
      <-> forall c, header_name (value (cell_at sh hr c)) <> Some h)
  /\ (forall s, header_name (VStr s)
                = if PyStr.is_empty s then None else Some (PyStr.strip s))
  /\ header_name VNone = None.
Proof.
  split_and!; [intros c; apply header_map_Some|apply header_map_None|done|done].
Qed.



End HeaderSpec.

Section WriterFrame.

Implicit Types (sh s : sheet) (hm : gmap string positive)
  (data : gmap string string) (r c target col : positive).

Lemma foldl_ext_in {A B} (f g : A -> B -> A) (l : list B) a :
  (forall a b, b ∈ l -> f a b = g a b) -> foldl f a l = foldl g a l.
Proof.
  revert a. induction l as [|b l IH]; intros a Hfg; [done|]. simpl.
  rewrite (Hfg a b) by by left. apply IH. intros a' b' Hb'. apply Hfg. by right.
Qed.

(** X7: the writer reads nothing but the seven fields of its table and the
    columns of their headers: two data rows that agree on these fields, and
    two header maps that agree on these headers, give the same sheet.  So an
    entry such as [Source File] never reaches a cell. *)
Theorem writer_reads_mapped_fields sh hm1 hm2 data1 data2 target :
  (forall field_name header, (field_name, header) ∈ field_to_header_map ->
     data1 !! field_name = data2 !! field_name /\ hm1 !! header = hm2 !! header) ->
  write_data_to_sheet sh hm1 data1 target = write_data_to_sheet sh hm2 data2 target.
Proof.
  intros Hsame. rewrite !write_unfold. apply foldl_ext_in.
  intros s [field_name header] Hin. destruct (Hsame _ _ Hin) as [Hd Hh].
  rewrite !write_field_unfold. unfold dict_get. by rewrite Hd, Hh.
Qed.

Lemma fields_fold_unmapped hm data target l s c :
  (forall field_name header, (field_name, header) ∈ l -> hm !! header <> Some c) ->
  cells (foldl (write_field hm data target) s l) !! (target, c)
  = cells s !! (target, c).
Proof.
  revert s. induction l as [|[fn h] l IH]; intros s Hl; [done|]. cbn [foldl].
  rewrite IH by (intros fn' h' Hin; apply (Hl fn'); by right).
  rewrite write_field_unfold.
  destruct (hm !! h) as [col|] eqn:Hh; [|done].
  rewrite upd_cell_lookup. rewrite decide_False; [done|].
  intros [= ->]. by apply (Hl fn h); [left|].
Qed.

Lemma borders_fold_lookup target l s c :
  cells (foldl (border_step target) s l) !! (target, c)
  = if decide (c ∈ l) then Some (set_border thin_border (cell_at s target c))
    else cells s !! (target, c).
Proof.
  revert s. induction l as [|k l IH]; intros s.
  - rewrite decide_False; [done|]. by intros ?%elem_of_nil.
  - cbn [foldl]. rewrite IH. unfold border_step.
    rewrite upd_cell_at, upd_cell_lookup.
    destruct (decide (c ∈ l)) as [Hl|Hl].
    + destruct (decide (c ∈ k :: l)) as [_|Hkl].
      * destruct (decide ((target, k) = (target, c))) as [[= ->]|]; [|done].
        by destruct (cell_at s target c).
      * exfalso. apply Hkl. by right.
    + destruct (decide ((target, k) = (target, c))) as [[= ->]|Hne].
      * destruct (decide (c ∈ c :: l)) as [_|Hkl]; [done|].
        exfalso. apply Hkl. by left.
      * destruct (decide (c ∈ k :: l)) as [Hkl|_]; [|done].
        apply elem_of_cons in Hkl as [->|?]; [by destruct Hne|done].
Qed.

(** X8: in the row the writer fills, a column to which none of the seven
    headers is mapped holds no value: among the first fourteen columns it is
    an empty cell with the thin border, beyond them there is no cell at
    all. *)
Theorem unmapped_columns sh hm data target c :
  (forall field_name header, (field_name, header) ∈ field_to_header_map ->
     hm !! header <> Some c) ->
  cells (write_data_to_sheet sh hm data target) !! (target, c)
  = if decide (c <= 14)%positive
    then Some (Cell VNone default_font thin_border)
    else None.
Proof.
  intros Hun. rewrite write_unfold, fields_fold_unmapped by done.
  rewrite borders_fold_lookup. unfold cell_at. rewrite insert_rows_at.
  destruct (decide (c <= 14)%positive) as [Hc|Hc].
  - rewrite decide_True; [done|]. apply range_pos_elem; lia.
  - rewrite decide_False; [done|]. rewrite range_pos_elem by lia. lia.
Qed.

End WriterFrame.

(** ** The rebuilt template sheet *)

Section TemplateRebuild.

Context `{NumStr}.




End TemplateRebuild.

(** ** Paths and files of a run *)

Section AbsolutePath.

Import PyStr Os.

Lemma head_app_l s t a : head s = Some a -> head (s +:+ t) = Some a.
Proof. by destruct s. Qed.

Lemma splitext_head p a : head p = Some a -> head (splitext p).1 = Some a.
Proof.
  intros Hp. unfold splitext.
  destruct (rfind "." p) as [dot|]; [|done].
  set (start := match rfind "/" p with Some i => S i | None => 0%nat end).
  destruct ((start <=? dot)%nat
            && negb (all_char "." (String.substring start (dot - start) p)))
    eqn:E; [|done].
  simpl. apply andb_true_iff in E as [Hle Hdots].
  apply Nat.leb_le in Hle.
  destruct dot as [|d].
  - replace start with 0%nat in Hdots by lia. simpl in Hdots.
    by destruct p.
  - destruct p as [|c p]; [done|]. done.
Qed.

(** X11: for an output name given as an absolute path, the backup path is
    the output path itself with the time stamp before the extension:
    [os.path.join] drops [.old], so the backup does not go to the backup
    folder. *)
Theorem backup_path_absolute now out :
  head out = Some "/"%char ->
  backup_path now out
  = (splitext out).1 +:+ "_" +:+ strftime now +:+ (splitext out).2
  /\ head (backup_path now out) = Some "/"%char.
Proof.
  intros Hout. pose proof (splitext_head out _ Hout) as Hh.
  unfold backup_path. destruct (splitext out) as [base ext]. simpl in *.
  assert (Hb : head (base +:+ "_" +:+ strftime now +:+ ext) = Some "/"%char).
  { by apply head_app_l. }
  unfold join. rewrite bool_decide_eq_true_2 by done. done.
Qed.

End AbsolutePath.

Section KeepsEntries.

Context `{NumStr}.
Implicit Types (f : gmap string entry).

Lemma keeps_refl f : keeps_entries f f.
Proof. by intros p. Qed.

Lemma keeps_trans f1 f2 f3 :
  keeps_entries f1 f2 -> keeps_entries f2 f3 -> keeps_entries f1 f3.
Proof.
  intros H12 H23 p. destruct (H12 p) as [? ?], (H23 p) as [? ?]. split; auto.
Qed.

Lemma keeps_insert f p e :
  f !! p <> Some Dir -> keeps_entries f (<[p := e]> f).
Proof.
  intros Hp q. destruct (decide (p = q)) as [->|Hne].
  - rewrite lookup_insert_eq. split; [done|]. by intros _.
  - by rewrite lookup_insert_ne.
Qed.

Lemma writable_not_dir f p : Os.writable f p = true -> f !! p <> Some Dir.
Proof.
  unfold Os.writable. intros [_ Hw]%andb_true_iff E. by rewrite E in Hw.
Qed.

Lemma copy_keeps f src dst f' : Os.copy f src dst = Some f' -> keeps_entries f f'.
Proof.
  unfold Os.copy. destruct (f !! src) as [[c locked|]|]; try done.
  destruct (Os.writable f _) eqn:Hw; [|done]. intros [= <-].
  by apply keeps_insert, writable_not_dir.
Qed.

Lemma makedirs_keeps f p f' : Os.makedirs f p = Some f' -> keeps_entries f f'.
Proof.
  unfold Os.makedirs. destruct (f !! p) as [[c locked|]|] eqn:E; try done.
  - intros [= <-]. apply keeps_refl.
  - intros [= <-]. apply keeps_insert. by rewrite E.
Qed.

Lemma backup_keeps f now out : keeps_entries f (backup_existing f now out).
Proof.
  unfold backup_existing.
  destruct (Os.makedirs f ".old") as [f1|] eqn:E1; [|apply keeps_refl].
  apply makedirs_keeps in E1.
  destruct (Os.copy f1 out _) as [f2|] eqn:E2; [|done].
  apply copy_keeps in E2. by eapply keeps_trans.
Qed.

Lemma save_and_exit_keeps f out wb :
  keeps_entries f (final_fs (save_and_exit f out wb)).
Proof.
  unfold save_and_exit, save.
  destruct (sheets (remove_template wb)); [apply keeps_refl|].
  destruct (Os.writable f out) eqn:Hw; [|apply keeps_refl].
  simpl. by apply keeps_insert, writable_not_dir.
Qed.

Lemma update_mode_keeps f now tpl out all_data :
  keeps_entries f (final_fs (update_mode f now tpl out all_data)).
Proof.
  unfold update_mode. pose proof (backup_keeps f now out) as Hb.
  destruct (load_workbook _ out); [|done].
  destruct (ensure_template _ tpl _); [|done].
  eapply keeps_trans; [exact Hb|]. apply save_and_exit_keeps.
Qed.

Lemma create_mode_keeps f tpl out all_data :
  keeps_entries f (final_fs (create_mode f tpl out all_data)).
Proof.
  unfold create_mode.
  destruct (Os.copy f tpl out) as [f1|] eqn:Hc; [|apply keeps_refl].
  apply copy_keeps in Hc.
  destruct (load_workbook f1 out) as [wb|]; [|done].
  destruct (sheets wb !! active_index wb); [|done].
  eapply keeps_trans; [exact Hc|]. apply save_and_exit_keeps.
Qed.

Lemma main_excel_keeps f now tpl typed all_data :
  keeps_entries f (final_fs (main_excel f now tpl typed all_data)).
Proof.
  unfold main_excel. destruct all_data; [apply keeps_refl|].
  destruct (negb (Os.exists_ f tpl)); [apply keeps_refl|].
  destruct (Os.exists_ f (output_name typed)).
  - apply update_mode_keeps.
  - apply create_mode_keeps.
Qed.

(** X18: no run removes anything.  Every path that had an entry before
    [main] still has one afterwards, and a folder is still a folder; the
    same holds for the part of [main] that starts from the extracted
    rows. *)
Theorem main_keeps_entries {coord : Type} f now
    (config : option (list (field coord))) listing open_pdf tpl typed :
  keeps_entries f (final_fs (main f now config listing open_pdf tpl typed))
  /\ forall all_data,
       keeps_entries f (final_fs (main_excel f now tpl typed all_data)).
Proof.
  split; [|intros; apply main_excel_keeps].
  unfold main. destruct config as [fields|]; [|apply keeps_refl].
  unfold setup_directories, Os.exists_.
  case_bool_decide as Hex; simpl.
  - destruct (f !! "input_pdfs") as [[c locked|]|]; try apply keeps_refl.
    destruct (filter _ listing); [apply keeps_refl|].
    destruct (collect_rows _ _ _ _); [|apply keeps_refl].
    apply main_excel_keeps.
  - apply keeps_insert. intros E. apply Hex. by rewrite E.
Qed.

Lemma backup_locked_out f now out c :
  f !! out = Some (File c true) ->
  backup_existing f now out !! out = Some (File c true).
Proof.
  intros Hout. unfold backup_existing, Os.makedirs.
  destruct (f !! ".old") as [[c' l'|]|] eqn:Eold; [done| |].
  - unfold Os.copy. rewrite Hout.
    destruct (Os.writable f _) eqn:Hw; [|done].
    rewrite lookup_insert_ne; [done|].
    intros E. unfold Os.writable in Hw. rewrite E, Hout in Hw.
    by rewrite andb_false_r in Hw.
  - assert (Hne : ".old" <> out) by (intros <-; congruence).
    unfold Os.copy. rewrite lookup_insert_ne by done. rewrite Hout.
    destruct (Os.writable _ _) eqn:Hw.
    + rewrite lookup_insert_ne; [by rewrite lookup_insert_ne|].
      intros E. unfold Os.writable in Hw. rewrite E in Hw.
      rewrite lookup_insert_ne, Hout in Hw by done.
      by rewrite andb_false_r in Hw.
    + by rewrite lookup_insert_ne.
Qed.

(** X12: an output file that is open in another program (so that writing
    to it fails) is never replaced: the run does not end as saved, the file
    keeps its content, and a run that got as far as the save reports the
    failure. *)
Theorem locked_output_untouched f now tpl typed all_data c :
  f !! output_name typed = Some (File c true) ->
  let res := main_excel f now tpl typed all_data in
  how res <> Saved
  /\ final_fs res !! output_name typed = Some (File c true)
  /\ (forall wb, handed res = Some wb -> how res = SaveFailed).
Proof.
  intros Hout res. subst res. unfold main_excel.
  destruct all_data as [|row rows]; [done|].
  destruct (negb (Os.exists_ f tpl)); [done|].
  unfold Os.exists_. rewrite bool_decide_eq_true_2 by by rewrite Hout.
  unfold update_mode.
  pose proof (backup_locked_out f now _ c Hout) as Hb.
  destruct (load_workbook _ _); [|done].
  destruct (ensure_template _ _ _); [|done].
  unfold save_and_exit, save, Os.writable. rewrite Hb.
  rewrite andb_false_r. by destruct (sheets _).
Qed.


End KeepsEntries.

Section Duplicates.

Context {coord : Type}.

(** X4: when several descriptors bear the same name, the entry of that
    name is the value extracted for the last of them. *)
Theorem last_descriptor_wins (doc : document coord) before fld after :
  name fld ∉ name <$> after ->
  exists d,
    extract_data_from_pdf (Some doc) (before ++ fld :: after) = Some d
    /\ d !! name fld = Some (extract_field doc fld).
Proof.
  intros Hafter. eexists. split; [done|].
  rewrite foldl_app. cbn [foldl].
  rewrite store_fold_absent by done.
  unfold store. by rewrite lookup_insert_eq.
Qed.

End Duplicates.

(** * The statements on the sample data *)

#[local] Existing Instance Sample.plain_num_str.

Example float_1500_50 :
  PyFloat.float "1500.50" = Some (PyFloat.Finite false 150050 (-2)).
Proof. reflexivity. Qed.

Example float_A_102 : PyFloat.float "A-102" = None.
Proof. reflexivity. Qed.

Example float_shapes :
  PyFloat.float " -1_000.5e+3 " = Some (PyFloat.Finite true 10005 2)
  /\ PyFloat.float ".5" = Some (PyFloat.Finite false 5 (-1))
  /\ PyFloat.float "1." = Some (PyFloat.Finite false 1 0)
  /\ PyFloat.float "." = None
  /\ PyFloat.float "" = None
  /\ PyFloat.float "12/05" = None
  /\ PyFloat.float "1__0" = None
  /\ PyFloat.float "1e" = None
  /\ PyFloat.float "-Infinity" = Some (PyFloat.Inf true)
  /\ PyFloat.float "nan" = Some PyFloat.NaN.
Proof. repeat split; reflexivity. Qed.

Example strip_shapes :
  PyStr.strip "  a b  " = "a b" /\ PyStr.strip "   " = ""
  /\ PyStr.strip "UNKNOWN_BATEA" = "UNKNOWN_BATEA".
Proof. repeat split; reflexivity. Qed.

Example splitext_shapes :
  Os.splitext "datos.xlsx" = ("datos", ".xlsx")
  /\ Os.splitext ".xlsx" = (".xlsx", "")
  /\ Os.splitext "a.b/c" = ("a.b/c", "")
  /\ Os.dirname "a/b/c.xlsx" = "a/b"
  /\ Os.join ".old" "x" = ".old/x".
Proof. repeat split; reflexivity. Qed.

Example header_map_sample :
  get_header_map Sample.template_sheet 4 = Sample.headers.
Proof. vm_compute. reflexivity. Qed.


(** A file in the place of [.old]: the run updates and saves the workbook,
    and no backup exists anywhere, against C3. *)
Lemma backup_missing_counterexample :
  let res := main_excel Sample.fs_old_is_file Sample.now "PLANTILLA.xlsx" "datos"
               [Sample.row_a1] in
  Sample.fs_old_is_file !! "datos.xlsx" = Some (File (Xlsx Sample.wb_existing) false)
  /\ how res = Saved
  /\ dom (final_fs res) = dom Sample.fs_old_is_file
  /\ final_fs res !! backup_path Sample.now "datos.xlsx" = None
  /\ final_fs res !! ".old" = Some (File Other false)
  /\ exists wb sh,
       final_fs res !! "datos.xlsx" = Some (File (Xlsx wb) false)
       /\ sheet_named wb "A-102" = Some sh
       /\ value (cell_at sh 5 3) = VNum (PyFloat.Finite false 150050 (-2)).
Proof.
  intros res. subst res.
  split; [vm_compute; reflexivity|].
  split; [vm_compute; reflexivity|].
  split; [vm_compute; reflexivity|].
  split; [vm_compute; reflexivity|].
  split; [vm_compute; reflexivity|].
  do 2 eexists.
  split; [vm_compute; reflexivity|].
  split; vm_compute; reflexivity.
Qed.

Lemma backup_before_update_witness :
  final_fs (main_excel Sample.fs_update Sample.now "PLANTILLA.xlsx" "datos"
              [Sample.row_a1])
    !! ".old/datos_2024-03-09_140507.xlsx"
  = Some (File (Xlsx Sample.wb_existing) false).
Proof.
  refine (proj1 (backup_before_update Sample.fs_update Sample.now "PLANTILLA.xlsx"
                   "datos" [Sample.row_a1] (Xlsx Sample.wb_existing) false
                   _ _ _ _ _ _)).
  - discriminate.
  - vm_compute. reflexivity.
  - vm_compute. reflexivity.
  - vm_compute. reflexivity.
  - left. vm_compute. reflexivity.
  - vm_compute. reflexivity.
Defined.




Lemma provisioner_lookup_witness :
  get_or_create_sheet Sample.wb_existing "A-102" "TEMPLATE"
  = (Sample.wb_existing, Some 0%nat)
  /\ get_or_create_sheet Sample.wb_no_template "B-7" "TEMPLATE"
     = (Sample.wb_no_template, None)
  /\ update_row Sample.wb_no_template Sample.row_b = Sample.wb_no_template.
Proof.
  split; [|split].
  - apply (proj1 (provisioner_lookup Sample.wb_existing "A-102" "TEMPLATE")
             0%nat Sample.old_sheet).
    reflexivity.
  - apply (proj1 (proj2 (proj2
             (provisioner_lookup Sample.wb_no_template "B-7" "TEMPLATE")))).
    + vm_compute. set_solver.
    + vm_compute. set_solver.
  - destruct (proj2 (proj2 (proj2
               (provisioner_lookup Sample.wb_no_template "B-7" "TEMPLATE"))))
      as (Hrow & _ & _).
    + vm_compute. set_solver.
    + vm_compute. set_solver.
    + apply Hrow. reflexivity.
Defined.



Lemma extraction_entries_witness :
  exists d,
    extract_data_from_pdf (Some Sample.doc)
      [Sample.fld_ok; Sample.fld_far; Sample.fld_unreadable; Sample.fld_short]
    = Some d
    /\ dom d = {["FECHA"; "BATEA"; "EMPRESA"; "KG NETOS"]}
    /\ d !! "FECHA" = Some "A B C".
Proof.
  destruct (extraction_entries Sample.doc
              [Sample.fld_ok; Sample.fld_far; Sample.fld_unreadable; Sample.fld_short])
    as (d & Hd & Hdom & _).
  exists d. split; [exact Hd|]. split.
  - rewrite Hdom. vm_compute. reflexivity.
  - injection Hd as <-. vm_compute. reflexivity.
Defined.

Lemma per_field_failures_witness :
  exists d,
    extract_data_from_pdf (Some Sample.doc)
      [Sample.fld_ok; Sample.fld_far; Sample.fld_unreadable; Sample.fld_short]
    = Some d
    /\ d !! "BATEA" = Some ""
    /\ d !! "FECHA" = Some "A B C".
Proof.
  destruct (per_field_failures Sample.doc [Sample.fld_ok] 
              [Sample.fld_unreadable; Sample.fld_short] Sample.fld_far)
    as (d & d' & Hd & Hd' & Hfar & _ & Hother & _).
  - vm_compute. set_solver.
  - exists d. split; [exact Hd|]. split.
    + apply Hfar. vm_compute. discriminate.
    + rewrite (Hother "FECHA") by discriminate.
      injection Hd' as <-. vm_compute. reflexivity.
Defined.

(** ** The further statements on the sample data *)

Lemma main_without_rows_witness :
  main Sample.fs_new Sample.now (Some [Sample.fld_ok]) ["leeme.txt"]
    Sample.open_pdf "PLANTILLA.xlsx" "datos"
  = Run (<["input_pdfs" := Dir]> Sample.fs_new) Returned None.
Proof.
  etrans.
  - apply (main_without_rows Sample.fs_new Sample.now [Sample.fld_ok]
             ["leeme.txt"] Sample.open_pdf "PLANTILLA.xlsx" "datos").
    + intros c locked. vm_compute. discriminate.
    + right. intros filename Hin Hpdf.
      apply list_elem_of_singleton in Hin as ->.
      vm_compute in Hpdf. discriminate.
  - vm_compute. reflexivity.
Defined.

Lemma collect_rows_spec_witness :
  exists all_data,
    collect_rows Sample.open_pdf "input_pdfs" [Sample.fld_ok; Sample.fld_far]
      ["a.pdf"; "roto.pdf"] = Some all_data
    /\ length all_data = 1%nat.
Proof.
  destruct (collect_rows_spec Sample.open_pdf "input_pdfs"
              [Sample.fld_ok; Sample.fld_far] ["a.pdf"; "roto.pdf"])
    as (all_data & Hc & HF).
  - vm_compute. apply list_elem_of_here.
  - exists all_data. split; [exact Hc|].
    apply Forall2_length in HF. rewrite HF. vm_compute. reflexivity.
Defined.

Lemma main_missing_fecha_witness :
  main Sample.fs_input Sample.now (Some [Sample.fld_far]) ["a.pdf"; "leeme.txt"]
    Sample.open_pdf "PLANTILLA.xlsx" "datos"
  = Run Sample.fs_input Raised None.
Proof.
  apply (main_missing_fecha Sample.fs_input Sample.now [Sample.fld_far]
           ["a.pdf"; "leeme.txt"] Sample.open_pdf "PLANTILLA.xlsx" "datos" "a.pdf").
  - vm_compute. reflexivity.
  - discriminate.
  - vm_compute. intros [E|E%elem_of_nil]%elem_of_cons; [discriminate E|done].
  - apply list_elem_of_here.
  - vm_compute. reflexivity.
  - exists Sample.doc. vm_compute. reflexivity.
Defined.

Lemma last_descriptor_wins_witness :
  exists d,
    extract_data_from_pdf (Some Sample.doc)
      [Sample.fld_ok; Sample.fld_again; Sample.fld_far] = Some d
    /\ d !! "FECHA" = Some "".
Proof.
  destruct (last_descriptor_wins Sample.doc [Sample.fld_ok] Sample.fld_again
              [Sample.fld_far]) as (d & Hd & Hv).
  - vm_compute. intros [E|E%elem_of_nil]%elem_of_cons; [discriminate E|done].
  - exists d. split; [exact Hd|]. etrans; [exact Hv|]. vm_compute. reflexivity.
Defined.

Lemma header_map_spec_witness :
  header_name (value (cell_at Sample.template_sheet 4 2)) = Some "BATEA"
  /\ forall c', (2 < c')%positive ->
       header_name (value (cell_at Sample.template_sheet 4 c')) <> Some "BATEA".
Proof.
  apply (proj1 (proj1 (header_map_spec Sample.template_sheet 4 "BATEA") 2%positive)).
  vm_compute. reflexivity.
Defined.


Lemma writer_reads_mapped_fields_witness :
  write_data_to_sheet Sample.old_sheet Sample.headers Sample.row_a1 5
  = write_data_to_sheet Sample.old_sheet Sample.headers
      (delete "Source File" Sample.row_a1) 5.
Proof.
  apply writer_reads_mapped_fields. intros field_name header Hin.
  repeat (apply elem_of_cons in Hin as [[= -> ->]|Hin];
          [split; vm_compute; reflexivity|]).
  by apply elem_of_nil in Hin.
Defined.

Lemma unmapped_columns_witness :
  cells (write_data_to_sheet Sample.old_sheet Sample.headers Sample.row_a1 5)
    !! (5, 9)%positive
  = Some (Cell VNone default_font thin_border).
Proof.
  apply (unmapped_columns Sample.old_sheet Sample.headers Sample.row_a1 5 9).
  intros field_name header Hin.
  repeat (apply elem_of_cons in Hin as [[= -> ->]|Hin];
          [vm_compute; discriminate|]).
  by apply elem_of_nil in Hin.
Defined.


Lemma backup_path_absolute_witness :
  backup_path Sample.now "/srv/datos.xlsx" = "/srv/datos_2024-03-09_140507.xlsx".
Proof.
  etrans.
  - apply (proj1 (backup_path_absolute Sample.now "/srv/datos.xlsx" eq_refl)).
  - vm_compute. reflexivity.
Defined.

Lemma locked_output_untouched_witness :
  how (main_excel Sample.fs_locked Sample.now "PLANTILLA.xlsx" "datos"
         [Sample.row_a1]) <> Saved
  /\ final_fs (main_excel Sample.fs_locked Sample.now "PLANTILLA.xlsx" "datos"
                 [Sample.row_a1]) !! "datos.xlsx"
     = Some (File (Xlsx Sample.wb_existing) true).
Proof.
  destruct (locked_output_untouched Sample.fs_locked Sample.now "PLANTILLA.xlsx"
              "datos" [Sample.row_a1] (Xlsx Sample.wb_existing))
    as (Hhow & Hfs & _).
  - vm_compute. reflexivity.
  - split; [exact Hhow|exact Hfs].
Defined.



Lemma group_by_batea_partition_witness :
  NoDup (group_by_batea [Sample.row_a1; Sample.row_b; Sample.row_a2]).*1
  /\ concat (group_by_batea [Sample.row_a1; Sample.row_b; Sample.row_a2]).*2
     ≡ₚ [Sample.row_a1; Sample.row_b; Sample.row_a2].
Proof.
  destruct (group_by_batea_partition [Sample.row_a1; Sample.row_b; Sample.row_a2])
    as (Hnd & _ & _ & Hperm).
  split; [exact Hnd|exact Hperm].
Defined.


